(** * Figma-to-code generator: a shallow embedding of [code-generator.ts]

    The development embeds the two generator classes of
    [src/utils/code-generator.ts], together with the types of [types/figma]:
    [AdvancedCodeGenerator] in full (top level), and of the legacy
    [CodeGenerator] the sanitizer, the two analyzers and the style extraction
    (module [Legacy]); [colorToTailwind], [detectComponentType],
    [calculateComplexity] and [estimateAccuracy] are the same in both.

    Modelling conventions.
    - A JavaScript string is a [string] of 8-bit code units.  Case mapping
      and the character classes of the regular expressions are the ASCII
      ones; a code unit above 127 is neither a letter, a digit nor white
      space.  The name sanitizer deletes every such unit, so its model is
      exact on arbitrary input.
    - A JavaScript number of the design document is a rational [Q] (every
      finite double is one); [NaN] and the infinities are not represented.
      [Math.round] is [floor (x + 1/2)].
    - An optional field [f?: T] is an [option T]; an [if (x)] on such a field
      is written with the truthiness of the value it holds.
    - An object used as an insertion-ordered record ([Record<string, any>])
      is an association list in insertion order.
    - [Date.now()] reads a clock that is threaded through the generation
      entry point; a thrown exception is the [inl] of a sum. *)

From Stdlib Require Import ZArith QArith Qround Bool List Lia Lqa.
From Stdlib Require Import Ascii String DecimalString.
Import ListNotations.

Local Open Scope string_scope.
Local Open Scope bool_scope.

(** ** JavaScript strings *)

Module JS.

Definition code (c : ascii) : nat := nat_of_ascii c.

Definition between (lo hi : nat) (c : ascii) : bool :=
  (lo <=? code c)%nat && (code c <=? hi)%nat.

(** [[a-z]], [[A-Z]], [[0-9]] and [[a-zA-Z0-9]] *)
Definition isLower : ascii -> bool := between 97 122.
Definition isUpper : ascii -> bool := between 65 90.
Definition isDigit : ascii -> bool := between 48 57.
Definition isAlnum (c : ascii) : bool := isLower c || isUpper c || isDigit c.

(** [\s] restricted to ASCII: TAB, LF, VT, FF, CR and the space *)
Definition isSpace (c : ascii) : bool := between 9 13 c || (code c =? 32)%nat.

(** the characters [.] does not match *)
Definition isLineTerminator (c : ascii) : bool :=
  (code c =? 10)%nat || (code c =? 13)%nat.

Definition toUpperChar (c : ascii) : ascii :=
  if isLower c then ascii_of_nat (code c - 32) else c.

Definition toLowerChar (c : ascii) : ascii :=
  if isUpper c then ascii_of_nat (code c + 32) else c.

Fixpoint mapChars (f : ascii -> ascii) (s : string) : string :=
  match s with
  | EmptyString => EmptyString
  | String c r => String (f c) (mapChars f r)
  end.

(** [String.prototype.toUpperCase] and [toLowerCase] *)
Definition toUpperCase : string -> string := mapChars toUpperChar.
Definition toLowerCase : string -> string := mapChars toLowerChar.

(** [s.includes(needle)] *)
Fixpoint includes (s needle : string) : bool :=
  String.prefix needle s ||
  match s with
  | EmptyString => false
  | String _ r => includes r needle
  end.

(** [xs.join(sep)] on an array of strings *)
Definition join (sep : string) (xs : list string) : string :=
  String.concat sep xs.

(** [s.repeat(n)] *)
Fixpoint repeat (s : string) (n : nat) : string :=
  match n with
  | O => ""
  | S k => s ++ repeat s k
  end.

(** truthiness of a string: only the empty string is falsy *)
Definition truthy (s : string) : bool :=
  match s with EmptyString => false | _ => true end.

(** [s.replace(/[cls]/g, repl)]: every character of the class is replaced
    by the literal [repl] *)
Fixpoint replaceAll (cls : ascii -> bool) (repl : string) (s : string) : string :=
  match s with
  | EmptyString => EmptyString
  | String c r =>
      if cls c then repl ++ replaceAll cls repl r
      else String c (replaceAll cls repl r)
  end.

(** [s.replace(/^[cls]/, f)]: when the string starts with a character of
    the class, that character [m] is replaced by [f m] *)
Definition replaceLeading (cls : ascii -> bool) (f : string -> string)
           (s : string) : string :=
  match s with
  | EmptyString => EmptyString
  | String c r => if cls c then f (String c EmptyString) ++ r else s
  end.

(** [s.replace(/[cls]+/g, repl)]: every maximal run of characters of the
    class is replaced by one [repl] *)
Fixpoint replaceRuns (cls : ascii -> bool) (repl : string) (inRun : bool)
         (s : string) : string :=
  match s with
  | EmptyString => EmptyString
  | String c r =>
      if cls c then
        if inRun then replaceRuns cls repl true r
        else repl ++ replaceRuns cls repl true r
      else String c (replaceRuns cls repl false r)
  end.

(** [a || b] on strings *)
Definition orElse (a b : string) : string := if truthy a then a else b.

End JS.

(** ** JavaScript numbers *)

Module Num.

Definition number := Q.

(** [if (x)]: zero is the only falsy number represented *)
Definition truthy (x : number) : bool := negb (Qnum x =? 0)%Z.

(** [Math.round]: nearest integer, halves towards plus infinity *)
Definition round (x : number) : Z := Qfloor (x + (1 # 2)).

Definition leb (x y : number) : bool := Qle_bool x y.
Definition ltb (x y : number) : bool := negb (Qle_bool y x).
Definition gtb (x y : number) : bool := ltb y x.

(** decimal digits of an integer, as [Number.prototype.toString] prints an
    integer below [1e21] *)
Definition intToString (z : Z) : string :=
  NilZero.string_of_int (Z.to_int z).

Definition digitChar (d : Z) : ascii := ascii_of_nat (48 + Z.to_nat d).

(** the digits after the decimal point of [r / d], for [0 <= r < d] *)
Fixpoint fraction (fuel : nat) (r d : Z) : string :=
  match fuel with
  | O => ""
  | S k =>
      if (r =? 0)%Z then ""
      else String (digitChar (10 * r / d)) (fraction k ((10 * r) mod d) d)
  end.

(** [Number.prototype.toString] (and the conversion of a template
    literal): the decimal expansion of the number.  It agrees with
    JavaScript on the integers below [1e21] in magnitude and on the
    decimal fractions of at most 15 significant digits that JavaScript
    prints without an exponent; a longer expansion is cut after 17
    fractional digits. *)
Definition toString (x : number) : string :=
  let n := Qnum x in
  let d := Z.pos (Qden x) in
  let a := Z.abs n in
  (if (n <? 0)%Z then "-" else "") ++
  intToString (a / d) ++
  (if (a mod d =? 0)%Z then "" else "." ++ fraction 17 (a mod d) d).

End Num.

(** ** The name sanitizer *)

(** [AdvancedCodeGenerator.sanitizeComponentName]:
<<
    return name
      .replace(/[^a-zA-Z0-9]/g, '')
      .replace(/^[0-9]/, 'Component$&')
      .replace(/^./, str => str.toUpperCase()) || 'Component'
>> *)
Definition sanitizeComponentName (name : string) : string :=
  JS.orElse
    (JS.replaceLeading (fun c => negb (JS.isLineTerminator c)) JS.toUpperCase
       (JS.replaceLeading JS.isDigit (fun m => "Component" ++ m)
          (JS.replaceAll (fun c => negb (JS.isAlnum c)) "" name)))
    "Component".

(** The sanitizer as the specification words it: strip, prefix a leading
    digit, capitalise, default. *)
Module SanitizeSpec.

Fixpoint strip (s : string) : string :=
  match s with
  | EmptyString => EmptyString
  | String c r => if JS.isAlnum c then String c (strip r) else strip r
  end.

Definition startsWithDigit (s : string) : bool :=
  match s with
  | EmptyString => false
  | String c _ => JS.isDigit c
  end.

Definition prefixDigit (s : string) : string :=
  if startsWithDigit s then "Component" ++ s else s.

Definition capitalize (s : string) : string :=
  match s with
  | EmptyString => EmptyString
  | String c r => String (JS.toUpperChar c) r
  end.

Definition sanitize (s : string) : string :=
  match strip s with
  | EmptyString => "Component"
  | r => capitalize (prefixDigit r)
  end.

End SanitizeSpec.

(** ** The design document ([types/figma]) *)

Inductive NodeType :=
| DOCUMENT | CANVAS | FRAME | GROUP | VECTOR | BOOLEAN_OPERATION | STAR | LINE
| ELLIPSE | REGULAR_POLYGON | RECTANGLE | TEXT | SLICE | COMPONENT
| COMPONENT_SET | INSTANCE.

Definition isTEXT (t : NodeType) : bool :=
  match t with TEXT => true | _ => false end.
Definition isFRAME (t : NodeType) : bool :=
  match t with FRAME => true | _ => false end.
Definition isRECTANGLE (t : NodeType) : bool :=
  match t with RECTANGLE => true | _ => false end.

(** The alpha channel is typed as required but read as optional by
    [colorToCSS]. *)
Module Color.
Record t := mk { r : Num.number; g : Num.number; b : Num.number;
                 a : option Num.number }.
End Color.

(** Of a paint and of an effect the generators read the [type] only. *)
Module Paint.
Record t := mk { type : string }.
End Paint.

Module Effect.
Record t := mk { type : string }.
End Effect.

Module Rectangle.
Record t := mk { x : Num.number; y : Num.number;
                 width : Num.number; height : Num.number }.
End Rectangle.

Module LayoutConstraint.
Record t := mk { vertical : string; horizontal : string }.
End LayoutConstraint.

Module TypeStyle.
Record t := mk { fontFamily : string; fontSize : Num.number }.
End TypeStyle.

(** [FigmaNode]: the fields the generators read.  The node's own fields are
    kept apart from its [children], which make the tree. *)
Module Node.

Record fields := mkFields {
  id : string;
  name : string;
  type : NodeType;
  backgroundColor : option Color.t;
  fills : option (list Paint.t);
  cornerRadius : option Num.number;
  absoluteBoundingBox : option Rectangle.t;
  constraints : option LayoutConstraint.t;
  layoutMode : option string;
  itemSpacing : option Num.number;
  paddingLeft : option Num.number;
  paddingRight : option Num.number;
  paddingTop : option Num.number;
  paddingBottom : option Num.number;
  effects : option (list Effect.t);
  characters : option string;
  style : option TypeStyle.t
}.

#[local] Unset Elimination Schemes.
Inductive t := mk (own : fields) (children : option (list t)).
#[local] Set Elimination Schemes.

Definition own (n : t) : fields := match n with mk o _ => o end.
Definition children (n : t) : option (list t) :=
  match n with mk _ c => c end.

End Node.

Definition FigmaNode := Node.t.
Coercion Node.own : Node.t >-> Node.fields.

Module FigmaComponent.
Record t := mk { key : string; name : string; description : string }.
End FigmaComponent.

(** [FigmaApiResponse]: [components] is held as the list that
    [Object.entries] returns; [|| {}] covers its absence. *)
Module FigmaApiResponse.
Record t := mk {
  document : FigmaNode;
  components : option (list (string * FigmaComponent.t))
}.
End FigmaApiResponse.

(** [CodeGenerationOptions]; at run time [framework] and [styling] are
    strings, compared with [===]. *)
Module Options.
Record t := mk {
  framework : string;
  styling : string;
  typescript : bool;
  accessibility : bool;
  responsive : bool;
  optimizeImages : bool
}.
End Options.

Module CustomCodeInputs.
Record t := mk { jsx : string; css : string; cssAdvanced : string }.
Definition empty : t := mk "" "" "".
End CustomCodeInputs.

(** ** The generated artifacts ([types/figma]) *)

Module Severity.
Inductive t := error | warning | info.
End Severity.

Module AccessibilityIssue.
Record t := mk { type : Severity.t; message : string; element : string;
                 fix_ : string }.
End AccessibilityIssue.

Module Wcag.
Inductive t := AA | A | NonCompliant.
End Wcag.

Module AccessibilityReport.
Record t := mk {
  score : Z;
  issues : list AccessibilityIssue.t;
  suggestions : list string;
  wcagCompliance : Wcag.t
}.
End AccessibilityReport.

Module ResponsiveBreakpoints.
Record t := mk {
  mobile : string; tablet : string; desktop : string;
  hasResponsiveDesign : bool
}.
End ResponsiveBreakpoints.

Module ComponentType.
Inductive t := button | card | text | input | layout | complex.
End ComponentType.

Module Complexity.
Inductive t := simple | medium | complex.
End Complexity.

Module ComponentMetadata.
Record t := mk {
  figmaNodeId : string;
  componentType : ComponentType.t;
  complexity : Complexity.t;
  estimatedAccuracy : Z;
  generationTime : Z;
  dependencies : list string
}.
End ComponentMetadata.

Module GeneratedComponent.
Record t := mk {
  id : string;
  name : string;
  jsx : string;
  css : string;
  typescript : option string;
  accessibility : AccessibilityReport.t;
  responsive : ResponsiveBreakpoints.t;
  metadata : ComponentMetadata.t
}.
End GeneratedComponent.

(** ** Effects: the clock and exceptions *)

(** The successive readings of [Date.now()]. *)
Definition Clock := nat -> Z.

Inductive JsError := ReferenceError (message : string).

(** A computation reads the clock and either throws or returns. *)
Definition M (X : Type) : Type := Clock -> JsError + (X * Clock).

Definition ret {X} (x : X) : M X := fun c => inr (x, c).

Definition bind {X Y} (m : M X) (k : X -> M Y) : M Y :=
  fun c => match m c with
           | inl e => inl e
           | inr (x, c') => k x c'
           end.

Definition throw {X} (e : JsError) : M X := fun _ => inl e.

(** [Date.now()] *)
Definition now : M Z := fun c => inr (c O, fun n => c (S n)).

(** a step that does not read the clock: it throws or returns *)
Definition lift {X} (r : JsError + X) : M X :=
  fun c => match r with inl e => inl e | inr x => inr (x, c) end.

Notation "x <- m ;; k" := (bind m (fun x => k))
  (at level 61, m at next level, right associativity).

(** [xs.forEach(body)], where the body updates the local [acc] *)
Fixpoint forEach {X S} (body : X -> S -> M S) (xs : list X) (acc : S) : M S :=
  match xs with
  | [] => ret acc
  | x :: r => acc' <- body x acc ;; forEach body r acc'
  end.

(** ** Helpers shared by the two generators *)

Definition dq : string := String (ascii_of_nat 34) EmptyString.
Definition nl : string := String (ascii_of_nat 10) EmptyString.

(** [arr.push(x1, ..., xn)] *)
Definition push {X} (arr items : list X) : list X := (arr ++ items)%list.

(** [o === lit] on an optional string field *)
Definition strIs (o : option string) (lit : string) : bool :=
  match o with
  | Some s => String.eqb s lit
  | None => false
  end.

(** [if (o)] on an optional string field *)
Definition truthyStr (o : option string) : bool :=
  match o with
  | Some s => JS.truthy s
  | None => false
  end.

(** [if (o)] on an optional number field *)
Definition truthyNum (o : option Num.number) : bool :=
  match o with
  | Some x => Num.truthy x
  | None => false
  end.

(** [if (o) push(f o)] on an optional number field *)
Definition whenNum {X} (o : option Num.number) (f : Num.number -> list X)
  : list X :=
  match o with
  | Some x => if Num.truthy x then f x else []
  | None => []
  end.

(** [node.fills?.some(fill => fill.type === 'IMAGE')]; [None] is
    [undefined] *)
Definition someImageFill (node : FigmaNode) : option bool :=
  match Node.fills node with
  | Some fs => Some (existsb (fun fill => String.eqb (Paint.type fill) "IMAGE") fs)
  | None => None
  end.

Module PropSpec.
Record t := mk { name : string; type : string; optional : bool }.
End PropSpec.

(** [`${p.name}${p.optional ? '?' : ''}: ${p.type};`] *)
Definition propLine (p : PropSpec.t) : string :=
  PropSpec.name p ++ (if PropSpec.optional p then "?" else "") ++ ": " ++
  PropSpec.type p ++ ";".

(** [colorToTailwind], the same in both classes *)
Definition colorToTailwind (color : Color.t) : string :=
  let r := Color.r color in
  let g := Color.g color in
  let b := Color.b color in
  if Num.gtb r (9 # 10) && Num.gtb g (9 # 10) && Num.gtb b (9 # 10)
  then "bg-white"
  else if Num.ltb r (1 # 10) && Num.ltb g (1 # 10) && Num.ltb b (1 # 10)
  then "bg-black"
  else if Num.gtb r (8 # 10) && Num.ltb g (3 # 10) && Num.ltb b (3 # 10)
  then "bg-red-500"
  else if Num.ltb r (3 # 10) && Num.gtb g (8 # 10) && Num.ltb b (3 # 10)
  then "bg-green-500"
  else if Num.ltb r (3 # 10) && Num.ltb g (3 # 10) && Num.gtb b (8 # 10)
  then "bg-blue-500"
  else "bg-gray-500".

(** [`${Math.round(c * 255)}`] *)
Definition channel (c : Num.number) : string :=
  Num.intToString (Num.round (c * (255 # 1))).

(** [detectComponentType], the same in both classes *)
Definition detectComponentType (node : FigmaNode) : ComponentType.t :=
  let name := JS.toLowerCase (Node.name node) in
  if JS.includes name "button" then ComponentType.button
  else if JS.includes name "card" then ComponentType.card
  else if JS.includes name "text" || isTEXT (Node.type node)
  then ComponentType.text
  else if JS.includes name "input" then ComponentType.input
  else
    match Node.children node with
    | Some cs => if (3 <? List.length cs)%nat then ComponentType.layout
                 else ComponentType.complex
    | None => ComponentType.complex
    end.

(** [calculateComplexity], the same in both classes *)
Definition calculateComplexity (node : FigmaNode) : Complexity.t :=
  let c0 := 0%Z in
  let c1 := match Node.children node with
            | Some cs => (c0 + Z.of_nat (List.length cs))%Z
            | None => c0
            end in
  let c2 := match Node.effects node with
            | Some es => if (0 <? List.length es)%nat then (c1 + 2)%Z else c1
            | None => c1
            end in
  let c3 := match Node.fills node with
            | Some fs => if (1 <? List.length fs)%nat then (c2 + 1)%Z else c2
            | None => c2
            end in
  if (c3 <=? 3)%Z then Complexity.simple
  else if (c3 <=? 8)%Z then Complexity.medium
  else Complexity.complex.

(** [estimateAccuracy], the same in both classes *)
Definition estimateAccuracy (node : FigmaNode) : Z :=
  let a0 := 85%Z in
  let a1 := match calculateComplexity node with
            | Complexity.simple => (a0 + 10)%Z
            | _ => a0
            end in
  let a2 := match Node.children node with
            | Some cs => if (5 <? List.length cs)%nat then (a1 - 5)%Z else a1
            | None => a1
            end in
  let a3 := match detectComponentType node with
            | ComponentType.button | ComponentType.text | ComponentType.card =>
                (a2 + 5)%Z
            | _ => a2
            end in
  Z.min 100 (Z.max 70 a3).

(** [score >= 80 ? 'AA' : score >= 60 ? 'A' : 'Non-compliant'] *)
Definition wcagOf (score : Z) : Wcag.t :=
  if (80 <=? score)%Z then Wcag.AA
  else if (60 <=? score)%Z then Wcag.A
  else Wcag.NonCompliant.

(** [hasFlexLayout] and [hasConstraints] of [analyzeResponsive], the same in
    both classes.  With [constraints] absent, [constraints?.horizontal] is
    [undefined], and [undefined !== 'LEFT'] holds. *)
Definition hasFlexLayout (node : FigmaNode) : bool :=
  strIs (Node.layoutMode node) "HORIZONTAL" ||
  strIs (Node.layoutMode node) "VERTICAL".

Definition hasConstraints (node : FigmaNode) : bool :=
  negb (strIs (option_map LayoutConstraint.horizontal (Node.constraints node))
          "LEFT") ||
  negb (strIs (option_map LayoutConstraint.vertical (Node.constraints node))
          "TOP").

(** ** The legacy [CodeGenerator] *)

Module Legacy.

(** [sanitizeComponentName], without the default *)
Definition sanitizeComponentName (name : string) : string :=
  JS.replaceLeading (fun c => negb (JS.isLineTerminator c)) JS.toUpperCase
    (JS.replaceLeading JS.isDigit (fun m => "Component" ++ m)
       (JS.replaceAll (fun c => negb (JS.isAlnum c)) "" name)).

Definition isInteractiveElement (node : FigmaNode) : bool :=
  JS.includes (JS.toLowerCase (Node.name node)) "button" ||
  JS.includes (JS.toLowerCase (Node.name node)) "link" ||
  JS.includes (JS.toLowerCase (Node.name node)) "input".

Definition analyzeAccessibility (node : FigmaNode) : AccessibilityReport.t :=
  let issues0 : list AccessibilityIssue.t := [] in
  let suggestions0 : list string := [] in
  let score0 := 100%Z in
  (* Check for missing alt text on images *)
  let '(issues1, score1) :=
    if isRECTANGLE (Node.type node) &&
       match someImageFill node with Some v => v | None => false end
    then (push issues0 [AccessibilityIssue.mk Severity.error
                          "Image missing alt text" (Node.name node)
                          "Add alt attribute with descriptive text"],
          (score0 - 20)%Z)
    else (issues0, score0) in
  (* Check for text contrast *)
  let suggestions1 :=
    if isTEXT (Node.type node)
    then push suggestions0 ["Verify text contrast meets WCAG AA standards"]
    else suggestions0 in
  (* Check for interactive elements *)
  let suggestions2 :=
    if isInteractiveElement node
    then push suggestions1 ["Ensure keyboard navigation support";
                            "Add ARIA labels for screen readers"]
    else suggestions1 in
  AccessibilityReport.mk score1 issues1 suggestions2 (wcagOf score1).

Definition generateResponsiveCSS (node : FigmaNode) (breakpoint : string)
  : string :=
  "/* " ++ breakpoint ++ " styles */".

Definition analyzeResponsive (node : FigmaNode) : ResponsiveBreakpoints.t :=
  ResponsiveBreakpoints.mk
    (generateResponsiveCSS node "mobile")
    (generateResponsiveCSS node "tablet")
    (generateResponsiveCSS node "desktop")
    (hasFlexLayout node || hasConstraints node).

(** [extractStyles]; the alpha channel is printed as it is *)
Definition extractStyles (node : FigmaNode) : list (string * string) :=
  let styles0 : list (string * string) := [] in
  let styles1 :=
    match Node.absoluteBoundingBox node with
    | Some box =>
        push styles0
          [("width", Num.toString (Rectangle.width box) ++ "px");
           ("height", Num.toString (Rectangle.height box) ++ "px")]
    | None => styles0
    end in
  let styles2 :=
    match Node.backgroundColor node with
    | Some color =>
        push styles1
          [("backgroundColor",
            "rgba(" ++ channel (Color.r color) ++ ", " ++
            channel (Color.g color) ++ ", " ++ channel (Color.b color) ++
            ", " ++
            match Color.a color with
            | Some a => Num.toString a
            | None => "undefined"
            end ++ ")")]
    | None => styles1
    end in
  let styles3 :=
    push styles2
      (whenNum (Node.cornerRadius node)
         (fun radius => [("borderRadius", Num.toString radius ++ "px")])) in
  styles3.

End Legacy.

(** ** [AdvancedCodeGenerator]: the utility methods *)

(** [node.fills?.some(fill => fill.type === 'IMAGE') || false] *)
Definition isImage (node : FigmaNode) : bool :=
  match someImageFill node with
  | Some v => v || false
  | None => false
  end.

Definition hasLinks (node : FigmaNode) : bool :=
  JS.includes (JS.toLowerCase (Node.name node)) "link" ||
  JS.includes (JS.toLowerCase (Node.name node)) "button".

Definition isInteractiveElement (node : FigmaNode) : bool :=
  let name := JS.toLowerCase (Node.name node) in
  JS.includes name "button" ||
  JS.includes name "link" ||
  JS.includes name "input" ||
  JS.includes name "click".

(** The last disjunct is [node.style?.fontSize && node.style.fontSize > 20];
    the result is used for its truthiness. *)
Definition isHeading (node : FigmaNode) : bool :=
  if negb (isTEXT (Node.type node)) then false
  else
    let name := JS.toLowerCase (Node.name node) in
    JS.includes name "title" ||
    JS.includes name "heading" ||
    JS.includes name "header" ||
    match Node.style node with
    | Some st =>
        Num.truthy (TypeStyle.fontSize st) &&
        Num.gtb (TypeStyle.fontSize st) (20 # 1)
    | None => false
    end.

(** [return 4.5 // Placeholder] *)
Definition calculateContrastRatio (node : FigmaNode) : Num.number := 45 # 10.

Definition colorToCSS (color : Color.t) (opacity : option Num.number) : string :=
  let alpha :=
    match opacity with
    | Some o => o
    | None => match Color.a color with
              | Some a => a
              | None => 1 # 1
              end
    end in
  "rgba(" ++ channel (Color.r color) ++ ", " ++ channel (Color.g color) ++
  ", " ++ channel (Color.b color) ++ ", " ++ Num.toString alpha ++ ")".

Definition pxToTailwindSpacing (px : Num.number) : string :=
  let spacing := Num.round (px / (4 # 1)) in
  if (spacing <=? 0)%Z then "0"
  else if (spacing <=? 96)%Z then Num.intToString spacing
  else "[" ++ Num.toString px ++ "px]".

Definition borderRadiusToTailwind (radius : Num.number) : string :=
  if Num.leb radius (2 # 1) then "rounded-sm"
  else if Num.leb radius (4 # 1) then "rounded"
  else if Num.leb radius (6 # 1) then "rounded-md"
  else if Num.leb radius (8 # 1) then "rounded-lg"
  else if Num.leb radius (12 # 1) then "rounded-xl"
  else if Num.leb radius (16 # 1) then "rounded-2xl"
  else "rounded-[" ++ Num.toString radius ++ "px]".

(** [str.replace(/([a-z0-9]|(?=[A-Z]))([A-Z])/g, '$1-$2')]: at a lower-case
    letter or digit followed by a capital the first alternative matches both
    characters; at a capital the second alternative matches it alone. *)
Fixpoint hyphenate (s : string) : string :=
  match s with
  | EmptyString => EmptyString
  | String c r =>
      match r with
      | String u r' =>
          if (JS.isLower c || JS.isDigit c) && JS.isUpper u
          then String c ("-" ++ String u (hyphenate r'))
          else if JS.isUpper c then "-" ++ String c (hyphenate r)
          else String c (hyphenate r)
      | EmptyString =>
          if JS.isUpper c then "-" ++ String c EmptyString
          else String c EmptyString
      end
  end.

Definition camelToKebab (str : string) : string :=
  JS.toLowerCase (hyphenate str).

Definition generateResponsiveCSS (node : FigmaNode) (breakpoint : string)
  : string :=
  "/* " ++ breakpoint ++ " responsive styles */".

(** [cssRules.replace(/^\.[^{]+\{/, '')]: a leading dot, at least one
    character other than an opening brace, and the first opening brace are
    removed. *)
Fixpoint untilBrace (s : string) : option (nat * string) :=
  match s with
  | EmptyString => None
  | String c r =>
      if Ascii.eqb c "{"%char then Some (O, r)
      else match untilBrace r with
           | Some (n, rest) => Some (S n, rest)
           | None => None
           end
  end.

Definition dropRuleHead (s : string) : string :=
  match s with
  | String c r =>
      if Ascii.eqb c "."%char then
        match untilBrace r with
        | Some (S _, rest) => rest
        | _ => s
        end
      else s
  | EmptyString => s
  end.

(** [s.replace(/\}$/, '')]: a closing brace at the very end is removed *)
Fixpoint dropFinalBrace (s : string) : string :=
  match s with
  | EmptyString => EmptyString
  | String c r =>
      match r with
      | EmptyString => if Ascii.eqb c "}"%char then EmptyString else s
      | _ => String c (dropFinalBrace r)
      end
  end.

(** ** [AdvancedCodeGenerator]: the generator proper *)

Section AdvancedCodeGenerator.

(** the fields of the instance *)
Variable figmaData : FigmaApiResponse.t.
Variable options : Options.t.
Variable customCode : CustomCodeInputs.t.

Definition isTailwind : bool := String.eqb (Options.styling options) "tailwind".

Definition extractProps (node : FigmaNode) : list PropSpec.t :=
  let props0 : list PropSpec.t := [] in
  let props1 :=
    if isTEXT (Node.type node) && truthyStr (Node.characters node)
    then push props0 [PropSpec.mk "children" "React.ReactNode" true]
    else props0 in
  let props2 :=
    if isImage node
    then push props1 [PropSpec.mk "src" "string" false;
                      PropSpec.mk "alt" "string" false;
                      PropSpec.mk "width" "number" false;
                      PropSpec.mk "height" "number" false]
    else props1 in
  push props2 [PropSpec.mk "className" "string" true].

(** the array [classes] of [generateTailwindClasses], before the join *)
Definition tailwindClassList (node : FigmaNode) : list string :=
  let classes0 : list string := [] in
  (* Layout *)
  let classes1 :=
    if strIs (Node.layoutMode node) "HORIZONTAL"
    then push classes0 ["flex"; "flex-row"]
    else if strIs (Node.layoutMode node) "VERTICAL"
    then push classes0 ["flex"; "flex-col"]
    else classes0 in
  (* Spacing *)
  let classes2 :=
    push classes1
      (whenNum (Node.itemSpacing node)
         (fun px => ["gap-" ++ pxToTailwindSpacing px])) in
  (* Padding *)
  let classes3 :=
    push classes2
      (whenNum (Node.paddingLeft node)
         (fun px => ["pl-" ++ pxToTailwindSpacing px])) in
  let classes4 :=
    push classes3
      (whenNum (Node.paddingRight node)
         (fun px => ["pr-" ++ pxToTailwindSpacing px])) in
  let classes5 :=
    push classes4
      (whenNum (Node.paddingTop node)
         (fun px => ["pt-" ++ pxToTailwindSpacing px])) in
  let classes6 :=
    push classes5
      (whenNum (Node.paddingBottom node)
         (fun px => ["pb-" ++ pxToTailwindSpacing px])) in
  (* Size *)
  let classes7 :=
    match Node.absoluteBoundingBox node with
    | Some box =>
        push classes6
          ["w-[" ++ Num.toString (Rectangle.width box) ++ "px]";
           "h-[" ++ Num.toString (Rectangle.height box) ++ "px]"]
    | None => classes6
    end in
  (* Background color *)
  let classes8 :=
    match Node.backgroundColor node with
    | Some color => push classes7 [colorToTailwind color]
    | None => classes7
    end in
  (* Border radius *)
  let classes9 :=
    push classes8
      (whenNum (Node.cornerRadius node)
         (fun radius => [borderRadiusToTailwind radius])) in
  classes9.

Definition generateTailwindClasses (node : FigmaNode) : string :=
  JS.join " " (tailwindClassList node).

(** The style record, in insertion order; every key is assigned once. *)
Definition extractAllStyles (node : FigmaNode) : list (string * string) :=
  let styles0 : list (string * string) := [] in
  (* Layout and position *)
  let styles1 :=
    match Node.absoluteBoundingBox node with
    | Some box =>
        push styles0
          [("width", Num.toString (Rectangle.width box) ++ "px");
           ("height", Num.toString (Rectangle.height box) ++ "px")]
    | None => styles0
    end in
  (* Flexbox layout *)
  let styles2 :=
    if truthyStr (Node.layoutMode node) then
      push
        (push styles1
           [("display", "flex");
            ("flexDirection",
             if strIs (Node.layoutMode node) "HORIZONTAL"
             then "row" else "column")])
        (whenNum (Node.itemSpacing node)
           (fun px => [("gap", Num.toString px ++ "px")]))
    else styles1 in
  (* Background color *)
  let styles3 :=
    match Node.backgroundColor node with
    | Some color => push styles2 [("backgroundColor", colorToCSS color None)]
    | None => styles2
    end in
  (* Border radius *)
  let styles4 :=
    push styles3
      (whenNum (Node.cornerRadius node)
         (fun radius => [("borderRadius", Num.toString radius ++ "px")])) in
  styles4.

Definition generateClassName (node : FigmaNode) : string :=
  if isTailwind then generateTailwindClasses node
  else
    JS.replaceAll
      (fun c => negb (JS.isLower c || JS.isDigit c || Ascii.eqb c "-"%char)) ""
      (JS.replaceRuns JS.isSpace "-" false (JS.toLowerCase (Node.name node))).

Definition generateInlineStyles (node : FigmaNode) : string :=
  if isTailwind then ""
  else
    let styles := extractAllStyles node in
    let styleEntries :=
      JS.join ", "
        (map (fun '(key, value) => key ++ ": " ++ dq ++ value ++ dq) styles) in
    if JS.truthy styleEntries then "{{ " ++ styleEntries ++ " }}" else "".

Definition getNextJSTag (node : FigmaNode) : string :=
  match Node.type node with
  | TEXT => if isHeading node then "h2" else "span"
  | FRAME => "div"
  | RECTANGLE => if isImage node then "Image" else "div"
  | COMPONENT | INSTANCE => "div"
  | _ => "div"
  end.

Definition generateNextJSAttributes (node : FigmaNode) : string :=
  let attributes0 : list string := [] in
  let attributes1 :=
    if isImage node
    then push attributes0
           ["src={src}"; "alt={alt}"; "width={width}"; "height={height}"]
    else attributes0 in
  if (0 <? List.length attributes1)%nat
  then " " ++ JS.join " " attributes1
  else "".

Definition generateJSXElement (node : FigmaNode)
           (className styles children : string) (depth : nat) : string :=
  let indent := JS.repeat "  " depth in
  let tag := getNextJSTag node in
  let attributes := generateNextJSAttributes node in
  let opening :=
    indent ++ "<" ++ tag ++
    (if JS.truthy className then " className=" ++ dq ++ className ++ dq
     else "") ++
    (if JS.truthy styles then " style={" ++ styles ++ "}" else "") ++
    attributes in
  if isTEXT (Node.type node) && truthyStr (Node.characters node) then
    opening ++ ">" ++ nl ++
    indent ++ "  {" ++
    (match Node.characters node with
     | Some cs => if JS.truthy cs then dq ++ cs ++ dq else "children"
     | None => "children"
     end) ++ "}" ++ nl ++
    indent ++ "</" ++ tag ++ ">"
  else if JS.truthy children then
    opening ++ ">" ++ nl ++
    children ++ nl ++
    indent ++ "</" ++ tag ++ ">"
  else opening ++ " />".

Fixpoint generateChildren (node : FigmaNode) : string :=
  match node with
  | Node.mk _ None => ""
  | Node.mk _ (Some []) => ""
  | Node.mk _ (Some children) =>
      JS.join nl
        (map (fun child =>
                let childClassName := generateClassName child in
                let childStyles := generateInlineStyles child in
                let grandChildren := generateChildren child in
                generateJSXElement child childClassName childStyles
                  grandChildren 2)
           children)
  end.

Definition generateNextJSImports (node : FigmaNode) : string :=
  let imports0 := ["import React from " ++ dq ++ "react" ++ dq] in
  let imports1 :=
    if isImage node
    then push imports0 ["import Image from " ++ dq ++ "next/image" ++ dq]
    else imports0 in
  let imports2 :=
    if hasLinks node
    then push imports1 ["import Link from " ++ dq ++ "next/link" ++ dq]
    else imports1 in
  JS.join nl imports2.

Definition generatePropsInterface (props : list PropSpec.t)
           (componentName : string) : string :=
  if (List.length props =? 0)%nat then ""
  else
    "interface " ++ componentName ++ "Props {" ++ nl ++
    "  " ++ JS.join (nl ++ "  ") (map propLine props) ++ nl ++
    "}" ++ nl ++ nl.

Definition generateTypeScript (node : FigmaNode) (componentName : string)
  : string :=
  let props := extractProps node in
  "export interface " ++ componentName ++ "Props {" ++ nl ++
  "  " ++ JS.join (nl ++ "  ") (map propLine props) ++ nl ++
  "}" ++ nl ++ nl ++
  "export type " ++ componentName ++ "Ref = HTMLDivElement;".

(** Outside the react branch the method ends with [return jsx]; no [jsx]
    is in scope there, so evaluating it throws a [ReferenceError]. *)
Definition generateJSX (node : FigmaNode) (componentName : string)
  : JsError + string :=
  let props := extractProps node in
  let children := generateChildren node in
  let className := generateClassName node in
  let styles := generateInlineStyles node in
  if String.eqb (Options.framework options) "react" then
    let imports := generateNextJSImports node in
    let propsInterface :=
      if Options.typescript options
      then generatePropsInterface props componentName else "" in
    let componentSignature :=
      if Options.typescript options
      then "export const " ++ componentName ++ ": React.FC<" ++
           componentName ++ "Props> = ({ " ++
           JS.join ", " (map PropSpec.name props) ++ " })"
      else "export const " ++ componentName ++ " = ({ " ++
           JS.join ", " (map PropSpec.name props) ++ " })" in
    (* Custom JSX code integration *)
    let customJSXSection :=
      if JS.truthy (CustomCodeInputs.jsx customCode)
      then nl ++ "  // === CUSTOM JSX CODE ===" ++ nl ++
           "  " ++ CustomCodeInputs.jsx customCode ++ nl ++
           "  // === END CUSTOM JSX CODE ===" ++ nl
      else "" in
    inr (imports ++ nl ++
         propsInterface ++ nl ++
         componentSignature ++ " => {" ++ customJSXSection ++ nl ++
         "  return (" ++ nl ++
         "    " ++ generateJSXElement node className styles children 1 ++ nl ++
         "  )" ++ nl ++
         "}" ++ nl ++
         nl ++
         "export default " ++ componentName)
  else inl (ReferenceError "jsx is not defined").

Definition generateTailwindCSS (node : FigmaNode) : string :=
  let classes := generateTailwindClasses node in
  "/* Figma-based Tailwind classes: " ++ classes ++ " */" ++ nl ++
  nl ++
  "/* Component base styles */" ++ nl ++
  "." ++ JS.toLowerCase (sanitizeComponentName (Node.name node)) ++ " {" ++ nl ++
  "  @apply " ++ classes ++ ";" ++ nl ++
  "}".

Definition convertToCSSRules (styles : list (string * string))
           (componentName : string) : string :=
  let cssRules :=
    JS.join nl
      (map (fun '(property, value) =>
              "  " ++ camelToKebab property ++ ": " ++ value ++ ";")
         styles) in
  "." ++ JS.toLowerCase componentName ++ " {" ++ nl ++ cssRules ++ nl ++ "}".

Definition generateCSSModules (cssRules : string) : string := cssRules.

Definition generateStyledComponents (cssRules componentName : string)
  : string :=
  "import styled from 'styled-components'" ++ nl ++
  nl ++
  "export const Styled" ++ componentName ++ " = styled.div`" ++ nl ++
  dropFinalBrace (dropRuleHead cssRules) ++ nl ++
  "`".

Definition generatePlainCSS (cssRules componentName : string) : string :=
  cssRules.

Definition generateCSS (node : FigmaNode) (componentName : string) : string :=
  let baseCSS :=
    if isTailwind then generateTailwindCSS node
    else
      let styles := extractAllStyles node in
      let cssRules := convertToCSSRules styles componentName in
      if String.eqb (Options.styling options) "css-modules"
      then generateCSSModules cssRules
      else if String.eqb (Options.styling options) "styled-components"
      then generateStyledComponents cssRules componentName
      else generatePlainCSS cssRules componentName in
  (* Custom CSS integration *)
  let customCSSSection :=
    if JS.truthy (CustomCodeInputs.css customCode)
    then nl ++ nl ++ "/* === CUSTOM CSS STYLES === */" ++ nl ++
         CustomCodeInputs.css customCode ++ nl ++
         "/* === END CUSTOM CSS STYLES === */"
    else "" in
  (* Advanced CSS++ integration *)
  let advancedCSSSection :=
    if JS.truthy (CustomCodeInputs.cssAdvanced customCode)
    then nl ++ nl ++ "/* === ADVANCED CSS++ FEATURES === */" ++ nl ++
         CustomCodeInputs.cssAdvanced customCode ++ nl ++
         "/* === END ADVANCED CSS++ FEATURES === */"
    else "" in
  baseCSS ++ customCSSSection ++ advancedCSSSection.

(** The parameter of [analyzeAccessibility] is the contrast estimate it
    calls, [this.calculateContrastRatio]. *)
Definition analyzeAccessibilityWith (contrast : FigmaNode -> Num.number)
           (node : FigmaNode) : AccessibilityReport.t :=
  let issues0 : list AccessibilityIssue.t := [] in
  let suggestions0 : list string := [] in
  let score0 := 100%Z in
  (* Image alt text check *)
  let '(issues1, score1) :=
    if isImage node
    then (push issues0 [AccessibilityIssue.mk Severity.error
                          "Image missing alt text" (Node.name node)
                          "Add alt attribute with descriptive text"],
          (score0 - 15)%Z)
    else (issues0, score0) in
  (* Text contrast check *)
  let '(issues2, score2) :=
    if isTEXT (Node.type node) then
      let contrastRatio := contrast node in
      if Num.ltb contrastRatio (45 # 10)
      then (push issues1 [AccessibilityIssue.mk Severity.warning
                            "Low text contrast" (Node.name node)
                            "Increase contrast between text and background"],
            (score1 - 10)%Z)
      else (issues1, score1)
    else (issues1, score1) in
  (* Interactive elements check *)
  let suggestions1 :=
    if isInteractiveElement node
    then push suggestions0 ["Ensure keyboard navigation support";
                            "Add ARIA labels for screen readers";
                            "Use proper focus states"]
    else suggestions0 in
  AccessibilityReport.mk (Z.max 0 score2) issues2 suggestions1 (wcagOf score2).

Definition analyzeAccessibility : FigmaNode -> AccessibilityReport.t :=
  analyzeAccessibilityWith calculateContrastRatio.

Definition analyzeResponsive (node : FigmaNode) : ResponsiveBreakpoints.t :=
  let hasResponsiveDesign := hasFlexLayout node || hasConstraints node in
  ResponsiveBreakpoints.mk
    (generateResponsiveCSS node "mobile")
    (generateResponsiveCSS node "tablet")
    (generateResponsiveCSS node "desktop")
    hasResponsiveDesign.

Definition extractDependencies (node : FigmaNode) : list string :=
  let deps0 := ["react"; "next"] in
  let deps1 :=
    if Options.typescript options
    then push deps0 ["@types/react"; "@types/node"] else deps0 in
  let deps2 := if isImage node then push deps1 ["next/image"] else deps1 in
  let deps3 :=
    if String.eqb (Options.styling options) "styled-components"
    then push deps2 ["styled-components"] else deps2 in
  deps3.

Definition generateMetadata (node : FigmaNode) (generationTime : Z)
  : ComponentMetadata.t :=
  ComponentMetadata.mk
    (Node.id node)
    (detectComponentType node)
    (calculateComplexity node)
    (estimateAccuracy node)
    generationTime
    (extractDependencies node).

(** [search] of [findNodeById]: the node itself, else the first hit among
    the children in order *)
Fixpoint search (id : string) (node : FigmaNode) : option FigmaNode :=
  if String.eqb (Node.id node) id then Some node
  else
    match node with
    | Node.mk _ (Some children) =>
        (fix searchEach (cs : list FigmaNode) : option FigmaNode :=
           match cs with
           | [] => None
           | child :: rest =>
               match search id child with
               | Some found => Some found
               | None => searchEach rest
               end
           end) children
    | Node.mk _ None => None
    end.

Definition findNodeById (id : string) : option FigmaNode :=
  search id (FigmaApiResponse.document figmaData).

(** [traverse] of [findMainFrames]: the frames pushed from [currentNode]
    on, in pre-order *)
Fixpoint traverse (currentNode : FigmaNode) : list FigmaNode :=
  let here :=
    if isFRAME (Node.type currentNode) &&
       match Node.children currentNode with
       | Some cs => (0 <? List.length cs)%nat
       | None => false
       end
    then [currentNode] else [] in
  match currentNode with
  | Node.mk _ (Some children) =>
      push here (flat_map traverse children)
  | Node.mk _ None => here
  end.

Definition findMainFrames (node : FigmaNode) : list FigmaNode :=
  traverse node.

Definition generateSingleComponent (node : FigmaNode) (componentName : string)
  : M GeneratedComponent.t :=
  startTime <- now ;;
  let sanitizedName := sanitizeComponentName componentName in
  jsx <- lift (generateJSX node sanitizedName) ;;
  let css := generateCSS node sanitizedName in
  let accessibility := analyzeAccessibility node in
  let responsive := analyzeResponsive node in
  endTime <- now ;;
  let metadata := generateMetadata node (endTime - startTime)%Z in
  ret (GeneratedComponent.mk
         (Node.id node)
         sanitizedName
         jsx
         css
         (if Options.typescript options
          then Some (generateTypeScript node sanitizedName) else None)
         accessibility
         responsive
         metadata).

(** Main generation method *)
Definition generateComponents : M (list GeneratedComponent.t) :=
  let components0 : list GeneratedComponent.t := [] in
  (* Generate components *)
  components1 <-
    forEach
      (fun '(key, component) components =>
         match findNodeById (FigmaComponent.key component) with
         | Some node =>
             generatedComponent <-
               generateSingleComponent node (FigmaComponent.name component) ;;
             ret (push components [generatedComponent])
         | None => ret components
         end)
      (match FigmaApiResponse.components figmaData with
       | Some entries => entries
       | None => []
       end)
      components0 ;;
  (* If no components, generate main frames *)
  if (List.length components1 =? 0)%nat then
    forEach
      (fun frame components =>
         generatedComponent <- generateSingleComponent frame (Node.name frame) ;;
         ret (push components [generatedComponent]))
      (findMainFrames (FigmaApiResponse.document figmaData))
      components1
  else ret components1.

End AdvancedCodeGenerator.

(** ** Statements of the specification *)

(** A string of letters and digits only. *)
Inductive AllAlnum : string -> Prop :=
| AllAlnum_nil : AllAlnum EmptyString
| AllAlnum_cons c r :
    JS.isAlnum c = true -> AllAlnum r -> AllAlnum (String c r).

#[local] Hint Constructors AllAlnum : core.

(** A sanitized name: letters and digits only, not empty, and its first
    character is already upper case and not a digit. *)
Definition Sanitized (s : string) : Prop :=
  AllAlnum s /\
  match s with
  | EmptyString => False
  | String c _ => JS.isDigit c = false /\ JS.toUpperChar c = c
  end.

(** The spacing step as the specification words it: the pixel value divided
    by 4 and floored, with the bracketed fallback once the divided value
    exceeds 96. *)
Module SpacingSpec.

Definition step (px : Num.number) : Z := Qfloor (px / (4 # 1)).

Definition token (px : Num.number) : string :=
  if Num.gtb (px / (4 # 1)) (96 # 1)
  then "[" ++ Num.toString px ++ "px]"
  else Num.intToString (step px).

End SpacingSpec.

(** The step the code computes: the pixel value divided by 4 and rounded
    to the nearest integer. *)
Definition roundedToken (px : Num.number) : string :=
  if (Num.round (px / (4 # 1))%Q <=? 96)%Z
  then Num.intToString (Num.round (px / (4 # 1)))
  else "[" ++ Num.toString px ++ "px]".

(** The supported configurations, from the union types of
    [CodeGenerationOptions]. *)
Definition supportedFramework (framework : string) : bool :=
  String.eqb framework "react" || String.eqb framework "vue" ||
  String.eqb framework "html".

Definition supportedStyling (styling : string) : bool :=
  String.eqb styling "tailwind" || String.eqb styling "css-modules" ||
  String.eqb styling "styled-components" || String.eqb styling "plain-css".

Definition supportedOptions (options : Options.t) : bool :=
  supportedFramework (Options.framework options) &&
  supportedStyling (Options.styling options).

Definition withStyling (styling : string) (options : Options.t) : Options.t :=
  Options.mk (Options.framework options) styling (Options.typescript options)
    (Options.accessibility options) (Options.responsive options)
    (Options.optimizeImages options).

(** The spacing, padding and corner-radius attributes of a node, with the
    prefix of the class token and the key of the style entry each one
    produces. *)
Inductive SizeAttr :=
| ItemSpacing | PaddingLeft | PaddingRight | PaddingTop | PaddingBottom
| CornerRadius.

Definition getAttr (attr : SizeAttr) (node : FigmaNode) : option Num.number :=
  match attr with
  | ItemSpacing => Node.itemSpacing node
  | PaddingLeft => Node.paddingLeft node
  | PaddingRight => Node.paddingRight node
  | PaddingTop => Node.paddingTop node
  | PaddingBottom => Node.paddingBottom node
  | CornerRadius => Node.cornerRadius node
  end.

Definition setAttr (attr : SizeAttr) (v : option Num.number) (node : FigmaNode)
  : FigmaNode :=
  let o := Node.own node in
  let pick (a : SizeAttr) (old : option Num.number) :=
    match attr, a with
    | ItemSpacing, ItemSpacing | PaddingLeft, PaddingLeft
    | PaddingRight, PaddingRight | PaddingTop, PaddingTop
    | PaddingBottom, PaddingBottom | CornerRadius, CornerRadius => v
    | _, _ => old
    end in
  Node.mk
    (Node.mkFields (Node.id o) (Node.name o) (Node.type o)
       (Node.backgroundColor o) (Node.fills o)
       (pick CornerRadius (Node.cornerRadius o))
       (Node.absoluteBoundingBox o) (Node.constraints o) (Node.layoutMode o)
       (pick ItemSpacing (Node.itemSpacing o))
       (pick PaddingLeft (Node.paddingLeft o))
       (pick PaddingRight (Node.paddingRight o))
       (pick PaddingTop (Node.paddingTop o))
       (pick PaddingBottom (Node.paddingBottom o))
       (Node.effects o) (Node.characters o) (Node.style o))
    (Node.children node).

Definition classPrefix (attr : SizeAttr) : string :=
  match attr with
  | ItemSpacing => "gap-"
  | PaddingLeft => "pl-"
  | PaddingRight => "pr-"
  | PaddingTop => "pt-"
  | PaddingBottom => "pb-"
  | CornerRadius => "rounded"
  end.

Definition styleKey (attr : SizeAttr) : string :=
  match attr with
  | ItemSpacing => "gap"
  | PaddingLeft => "paddingLeft"
  | PaddingRight => "paddingRight"
  | PaddingTop => "paddingTop"
  | PaddingBottom => "paddingBottom"
  | CornerRadius => "borderRadius"
  end.

Definition hasClassFor (attr : SizeAttr) (classes : list string) : bool :=
  existsb (String.prefix (classPrefix attr)) classes.

Definition hasStyleFor (attr : SizeAttr) (styles : list (string * string))
  : bool :=
  existsb (fun entry => String.eqb (fst entry) (styleKey attr)) styles.

(** Two artifacts that agree on every field but [metadata.generationTime]. *)
Definition sameButTime (x y : GeneratedComponent.t) : Prop :=
  GeneratedComponent.id x = GeneratedComponent.id y /\
  GeneratedComponent.name x = GeneratedComponent.name y /\
  GeneratedComponent.jsx x = GeneratedComponent.jsx y /\
  GeneratedComponent.css x = GeneratedComponent.css y /\
  GeneratedComponent.typescript x = GeneratedComponent.typescript y /\
  GeneratedComponent.accessibility x = GeneratedComponent.accessibility y /\
  GeneratedComponent.responsive x = GeneratedComponent.responsive y /\
  let mx := GeneratedComponent.metadata x in
  let my := GeneratedComponent.metadata y in
  ComponentMetadata.figmaNodeId mx = ComponentMetadata.figmaNodeId my /\
  ComponentMetadata.componentType mx = ComponentMetadata.componentType my /\
  ComponentMetadata.complexity mx = ComponentMetadata.complexity my /\
  ComponentMetadata.estimatedAccuracy mx = ComponentMetadata.estimatedAccuracy my /\
  ComponentMetadata.dependencies mx = ComponentMetadata.dependencies my.

(** Two runs with the same outcome: the same exception, or arrays of the
    same length whose artifacts agree pairwise up to the generation time. *)
Definition sameOutcome {X} (R : X -> X -> Prop)
           (r1 r2 : JsError + (X * Clock)) : Prop :=
  match r1, r2 with
  | inl e1, inl e2 => e1 = e2
  | inr (x1, _), inr (x2, _) => R x1 x2
  | _, _ => False
  end.

(** The value a run returns, without the clock it leaves. *)
Definition outcome {X} (r : JsError + (X * Clock)) : JsError + X :=
  match r with
  | inl e => inl e
  | inr (x, _) => inr x
  end.

(** The declared components that resolve, each with the node it resolves
    to and its declared name, in declaration order. *)
Definition resolved (figmaData : FigmaApiResponse.t)
  : list (FigmaNode * string) :=
  flat_map
    (fun entry =>
       match findNodeById figmaData (FigmaComponent.key (snd entry)) with
       | Some node => [(node, FigmaComponent.name (snd entry))]
       | None => []
       end)
    (match FigmaApiResponse.components figmaData with
     | Some entries => entries
     | None => []
     end).

(** The document with the declarations that resolve only. *)
Definition resolves (figmaData : FigmaApiResponse.t)
           (entry : string * FigmaComponent.t) : bool :=
  match findNodeById figmaData (FigmaComponent.key (snd entry)) with
  | Some _ => true
  | None => false
  end.

Definition withoutUnresolved (figmaData : FigmaApiResponse.t)
  : FigmaApiResponse.t :=
  FigmaApiResponse.mk (FigmaApiResponse.document figmaData)
    (option_map (filter (resolves figmaData))
       (FigmaApiResponse.components figmaData)).

(** The object literal [generateSingleComponent] returns, given the markup
    and the two readings of the clock. *)
Definition artifact (options : Options.t) (customCode : CustomCodeInputs.t)
           (node : FigmaNode) (componentName jsx : string)
           (startTime endTime : Z) : GeneratedComponent.t :=
  let sanitizedName := sanitizeComponentName componentName in
  GeneratedComponent.mk (Node.id node) sanitizedName jsx
    (generateCSS options customCode node sanitizedName)
    (if Options.typescript options
     then Some (generateTypeScript node sanitizedName) else None)
    (analyzeAccessibility node) (analyzeResponsive node)
    (generateMetadata options node (endTime - startTime)%Z).

(** The body of the two loops of [generateComponents]. *)
Definition pushGenerated (options : Options.t) (customCode : CustomCodeInputs.t)
           (target : FigmaNode * string)
           (components : list GeneratedComponent.t)
  : M (list GeneratedComponent.t) :=
  generatedComponent <-
    generateSingleComponent options customCode (fst target) (snd target) ;;
  ret (push components [generatedComponent]).

(** The nodes [generateComponents] turns into artifacts: the declared
    components that resolve or, when there is none, the main frames. *)
Definition targets (figmaData : FigmaApiResponse.t)
  : list (FigmaNode * string) :=
  match resolved figmaData with
  | [] => map (fun frame : FigmaNode => (frame, Node.name frame))
            (findMainFrames (FigmaApiResponse.document figmaData))
  | ts => ts
  end.

(** An artifact that [generateSingleComponent] returns for the target at
    some reading of the clock. *)
Definition generatedFrom (options : Options.t) (customCode : CustomCodeInputs.t)
           (generated : GeneratedComponent.t) (target : FigmaNode * string)
  : Prop :=
  exists clock,
    outcome (generateSingleComponent options customCode (fst target)
               (snd target) clock) = inr generated.

(** ** Sample documents *)

Module Sample.

Definition fields (id name : string) (type : NodeType) : Node.fields :=
  Node.mkFields id name type None None None None None None None None None
    None None None None None.

(** a text node without constraints and without a flow layout *)
Definition label : FigmaNode := Node.mk (fields "1:2" "Label" TEXT) None.

(** a rectangle whose only attribute is an item spacing *)
Definition spaced (px : Num.number) : FigmaNode :=
  Node.mk
    (Node.mkFields "1:3" "Box" RECTANGLE None None None None None None
       (Some px) None None None None None None None)
    None.

(** a frame holding the label *)
Definition page : FigmaNode :=
  Node.mk (fields "0:1" "Page" FRAME) (Some [label]).

(** the frame is declared as a component; a second declaration does not
    resolve *)
Definition file : FigmaApiResponse.t :=
  FigmaApiResponse.mk page
    (Some [("c1", FigmaComponent.mk "0:1" "Page" "");
           ("c2", FigmaComponent.mk "9:9" "Gone" "")]).

Definition react (styling : string) : Options.t :=
  Options.mk "react" styling false true true true.

Definition vue : Options.t :=
  Options.mk "vue" "tailwind" false true true true.

Definition clock : Clock := fun n => Z.of_nat n.

End Sample.

(** ** The legacy [CodeGenerator]: the dialects *)

Module LegacyDialects.

(** the array [classes] of the legacy [generateTailwindClasses], before the
    join; the two layout tests are separate [if]s, the step has no upper
    bound, and the radius comes before the colour *)
Definition tailwindClassList (node : FigmaNode) : list string :=
  let classes0 : list string := [] in
  (* Layout classes *)
  let classes1 :=
    if strIs (Node.layoutMode node) "HORIZONTAL"
    then push classes0 ["flex"; "flex-row"] else classes0 in
  let classes2 :=
    if strIs (Node.layoutMode node) "VERTICAL"
    then push classes1 ["flex"; "flex-col"] else classes1 in
  (* Spacing *)
  let step (px : Num.number) := Num.intToString (Num.round (px / (4 # 1))) in
  let classes3 :=
    push classes2
      (whenNum (Node.itemSpacing node) (fun px => ["gap-" ++ step px])) in
  let classes4 :=
    push classes3
      (whenNum (Node.paddingLeft node) (fun px => ["pl-" ++ step px])) in
  let classes5 :=
    push classes4
      (whenNum (Node.paddingRight node) (fun px => ["pr-" ++ step px])) in
  let classes6 :=
    push classes5
      (whenNum (Node.paddingTop node) (fun px => ["pt-" ++ step px])) in
  let classes7 :=
    push classes6
      (whenNum (Node.paddingBottom node) (fun px => ["pb-" ++ step px])) in
  (* Border radius *)
  let classes8 :=
    push classes7
      (whenNum (Node.cornerRadius node)
         (fun cornerRadius =>
            let radius := Num.round (cornerRadius / (4 # 1)) in
            ["rounded-" ++
             (if (radius <=? 3)%Z
              then if (radius =? 1)%Z then "sm"
                   else if (radius =? 2)%Z then "" else "md"
              else "lg")])) in
  (* Background color *)
  let classes9 :=
    match Node.backgroundColor node with
    | Some color => push classes8 [colorToTailwind color]
    | None => classes8
    end in
  classes9.

Definition generateTailwindClasses (node : FigmaNode) : string :=
  JS.join " " (tailwindClassList node).

(** [convertToTailwind]: the switch maps two properties and passes over
    the others *)
Definition convertToTailwind (styles : list (string * string)) : string :=
  JS.join " "
    (fold_left
       (fun classes '(property, value) =>
          if String.eqb property "backgroundColor"
          then push classes ["bg-gray-500"]
          else if String.eqb property "borderRadius"
          then push classes ["rounded"]
          else classes)
       styles []).

Definition convertToCSS (styles : list (string * string)) (styling : string)
  : string :=
  let cssRules :=
    JS.join nl
      (map (fun '(property, value) => "  " ++ property ++ ": " ++ value ++ ";")
         styles) in
  ".component {" ++ nl ++ cssRules ++ nl ++ "}".

Definition generateCSS (node : FigmaNode) (styling : string) : string :=
  let styles := Legacy.extractStyles node in
  if String.eqb styling "tailwind" then convertToTailwind styles
  else convertToCSS styles styling.

End LegacyDialects.

(** ** The callers: [QualityReport.tsx] and [FigmaInfoDisplay.tsx] *)

Module QualityReport.



End QualityReport.

Scheme Equality for NodeType.

Module FigmaInfoDisplay.

(** [{ allNodes, nodeCounts }]; an entry of [allNodes] is the copy
    [{ ...node, depth }], and [nodeCounts] is keyed by the node type, in
    insertion order *)
Record ProcessedDocument := mk {
  allNodes : list (FigmaNode * nat);
  nodeCounts : list (NodeType * nat)
}.

(** [nodeCounts[type] = (nodeCounts[type] || 0) + 1]: the count of a key
    already there is raised in place, a new key is added last *)
Fixpoint increment (nodeCounts : list (NodeType * nat)) (type : NodeType)
  : list (NodeType * nat) :=
  match nodeCounts with
  | [] => [(type, (0 + 1)%nat)]
  | (key, count) :: rest =>
      if NodeType_beq key type
      then (key, ((if (count =? 0)%nat then 0 else count) + 1)%nat) :: rest
      else (key, count) :: increment rest type
  end.

(** [traverse] of [processFigmaDocument]; [acc] is the pair of the two
    locals it updates *)
Fixpoint traverse (node : FigmaNode) (depth : nat) (acc : ProcessedDocument)
  : ProcessedDocument :=
  let acc1 :=
    mk (push (allNodes acc) [(node, depth)])
       (increment (nodeCounts acc) (Node.type node)) in
  match node with
  | Node.mk _ (Some children) =>
      fold_left (fun a child => traverse child (S depth) a) children acc1
  | Node.mk _ None => acc1
  end.

Definition processFigmaDocument (documentNode : FigmaNode)
  : ProcessedDocument :=
  traverse documentNode 0 (mk [] []).

(** [nodeCounts[type]], with 0 for [undefined] *)
Definition countOf (type : NodeType) (nodeCounts : list (NodeType * nat))
  : nat :=
  match find (fun entry => NodeType_beq (fst entry) type) nodeCounts with
  | Some (_, count) => count
  | None => 0
  end.

(** the sum of the counts *)
Definition total (nodeCounts : list (NodeType * nat)) : nat :=
  fold_right (fun entry sum => (snd entry + sum)%nat) O nodeCounts.

End FigmaInfoDisplay.

(** ** Vocabulary of the further statements *)

(** The nodes of a tree in pre-order, alone and with their depth. *)
Fixpoint preorder (node : FigmaNode) : list FigmaNode :=
  node ::
  match node with
  | Node.mk _ (Some children) => flat_map preorder children
  | Node.mk _ None => []
  end.

Fixpoint preorderDepth (depth : nat) (node : FigmaNode)
  : list (FigmaNode * nat) :=
  (node, depth) ::
  match node with
  | Node.mk _ (Some children) => flat_map (preorderDepth (S depth)) children
  | Node.mk _ None => []
  end.

Definition hasId (id : string) (node : FigmaNode) : bool :=
  String.eqb (Node.id node) id.

(** a frame with at least one child *)
Definition isMainFrame (node : FigmaNode) : bool :=
  isFRAME (Node.type node) &&
  match Node.children node with
  | Some cs => (0 <? List.length cs)%nat
  | None => false
  end.

Fixpoint allChars (p : ascii -> bool) (s : string) : bool :=
  match s with
  | EmptyString => true
  | String c r => p c && allChars p r
  end.

Definition notUpper (c : ascii) : bool := negb (JS.isUpper c).
Definition notBrace (c : ascii) : bool := negb (Ascii.eqb c "{"%char).

(** [[a-z0-9-]] *)
Definition classChar (c : ascii) : bool :=
  JS.isLower c || JS.isDigit c || Ascii.eqb c "-"%char.

(** a hyphen in front of every capital letter *)
Fixpoint hyphenEach (s : string) : string :=
  match s with
  | EmptyString => EmptyString
  | String c r =>
      if JS.isUpper c then "-" ++ String c (hyphenEach r)
      else String c (hyphenEach r)
  end.

(** the keys [extractAllStyles] can assign, in the order of assignment *)
Definition styleKeys : list string :=
  ["width"; "height"; "display"; "flexDirection"; "gap"; "backgroundColor";
   "borderRadius"].

(** [xs] is [ys] with some elements left out *)
Fixpoint subsequence (xs ys : list string) : bool :=
  match xs, ys with
  | [], _ => true
  | _ :: _, [] => false
  | x :: xs', y :: ys' =>
      if String.eqb x y then subsequence xs' ys' else subsequence xs ys'
  end.

(** the rule lines of [convertToCSSRules] *)
Definition ruleLines (styles : list (string * string)) : string :=
  JS.join nl
    (map (fun '(property, value) =>
            "  " ++ camelToKebab property ++ ": " ++ value ++ ";")
       styles).

(** the two sections [generateCSS] appends for the custom code *)
Definition customCSSSection (customCode : CustomCodeInputs.t) : string :=
  (if JS.truthy (CustomCodeInputs.css customCode)
   then nl ++ nl ++ "/* === CUSTOM CSS STYLES === */" ++ nl ++
        CustomCodeInputs.css customCode ++ nl ++
        "/* === END CUSTOM CSS STYLES === */"
   else "") ++
  (if JS.truthy (CustomCodeInputs.cssAdvanced customCode)
   then nl ++ nl ++ "/* === ADVANCED CSS++ FEATURES === */" ++ nl ++
        CustomCodeInputs.cssAdvanced customCode ++ nl ++
        "/* === END ADVANCED CSS++ FEATURES === */"
   else "").

(** the issue pushed for an image *)
Definition altTextIssue (node : FigmaNode) : AccessibilityIssue.t :=
  AccessibilityIssue.mk Severity.error "Image missing alt text"
    (Node.name node) "Add alt attribute with descriptive text".

Definition generationTimeOf (g : GeneratedComponent.t) : Z :=
  ComponentMetadata.generationTime (GeneratedComponent.metadata g).

Definition childCount (node : FigmaNode) : nat :=
  match Node.children node with
  | Some cs => List.length cs
  | None => O
  end.

(* ================================================================== *)
(** * Theorems *)

(** ** Character classes *)

Lemma alnum_not_line_terminator c :
  JS.isAlnum c = true -> JS.isLineTerminator c = false.
Proof.
  destruct c as [[] [] [] [] [] [] [] []]; vm_compute; congruence.
Qed.

Lemma upper_of_alnum c :
  JS.isAlnum c = true -> JS.isAlnum (JS.toUpperChar c) = true.
Proof.
  destruct c as [[] [] [] [] [] [] [] []]; vm_compute; congruence.
Qed.

Lemma upper_not_digit c :
  JS.isAlnum c = true -> JS.isDigit c = false ->
  JS.isDigit (JS.toUpperChar c) = false.
Proof.
  destruct c as [[] [] [] [] [] [] [] []]; vm_compute; congruence.
Qed.

Lemma upper_upper c : JS.toUpperChar (JS.toUpperChar c) = JS.toUpperChar c.
Proof.
  destruct c as [[] [] [] [] [] [] [] []]; vm_compute; congruence.
Qed.

(** ** The sanitizer against its specification *)

Lemma replaceAll_strip s :
  JS.replaceAll (fun c => negb (JS.isAlnum c)) "" s = SanitizeSpec.strip s.
Proof.
  induction s as [|c r IH]; simpl; [reflexivity|].
  destruct (JS.isAlnum c); simpl; now rewrite IH.
Qed.

Lemma strip_alnum s : AllAlnum (SanitizeSpec.strip s).
Proof.
  induction s as [|c r IH]; simpl; auto.
  destruct (JS.isAlnum c) eqn:E; auto.
Qed.

Lemma strip_fixed s : AllAlnum s -> SanitizeSpec.strip s = s.
Proof.
  induction 1 as [|c r Hc _ IH]; simpl; [reflexivity|].
  now rewrite Hc, IH.
Qed.

Lemma sanitize_of_strip (s : string) :
  sanitizeComponentName s =
  match SanitizeSpec.strip s with
  | EmptyString => "Component"
  | String c r =>
      SanitizeSpec.capitalize (SanitizeSpec.prefixDigit (String c r))
  end.
Proof.
  unfold sanitizeComponentName.
  rewrite replaceAll_strip.
  pose proof (strip_alnum s) as A.
  destruct (SanitizeSpec.strip s) as [|c r]; [reflexivity|].
  inversion A as [|c' r' Hc Hr]; subst.
  unfold SanitizeSpec.prefixDigit; simpl.
  destruct (JS.isDigit c) eqn:D; simpl; [reflexivity|].
  now rewrite (alnum_not_line_terminator c Hc).
Qed.

(** The sanitizer of [AdvancedCodeGenerator] meets the contract on every
    string: it returns the string obtained by removing every character
    outside [A-Za-z0-9], then prefixing the word "Component" when the
    remainder starts with a digit, then upper-casing the first character, and
    exactly "Component" when the stripped remainder is empty. *)
Lemma sanitizeComponentName_contract (s : string) :
  sanitizeComponentName s = SanitizeSpec.sanitize s.
Proof.
  rewrite sanitize_of_strip. unfold SanitizeSpec.sanitize.
  destruct (SanitizeSpec.strip s); reflexivity.
Qed.

Lemma sanitize_Sanitized s : Sanitized (sanitizeComponentName s).
Proof.
  rewrite sanitize_of_strip.
  pose proof (strip_alnum s) as A.
  destruct (SanitizeSpec.strip s) as [|c r].
  - split; [|split; reflexivity].
    repeat (constructor; [reflexivity|]); constructor.
  - inversion A as [|c' r' Hc Hr]; subst.
    unfold SanitizeSpec.prefixDigit; simpl.
    destruct (JS.isDigit c) eqn:D; simpl.
    + split; [|split; reflexivity].
      repeat (constructor; [reflexivity|]); auto.
    + split; [|split].
      * constructor; [now apply upper_of_alnum | assumption].
      * now apply upper_not_digit.
      * apply upper_upper.
Qed.

Lemma Sanitized_fixed s : Sanitized s -> sanitizeComponentName s = s.
Proof.
  intros [A F]. rewrite sanitize_of_strip, (strip_fixed s A).
  destruct s as [|c r]; [contradiction|].
  destruct F as [D U].
  unfold SanitizeSpec.prefixDigit; simpl. rewrite D. simpl. now rewrite U.
Qed.

(** The legacy sanitizer differs on a name without a letter or digit only:
    it returns the empty string there. *)
Lemma legacy_sanitize_of_strip (s : string) :
  Legacy.sanitizeComponentName s =
  match SanitizeSpec.strip s with
  | EmptyString => EmptyString
  | String _ _ => sanitizeComponentName s
  end.
Proof.
  rewrite sanitize_of_strip. unfold Legacy.sanitizeComponentName.
  rewrite replaceAll_strip.
  pose proof (strip_alnum s) as A.
  destruct (SanitizeSpec.strip s) as [|c r]; [reflexivity|].
  inversion A as [|c' r' Hc Hr]; subst.
  unfold SanitizeSpec.prefixDigit; simpl.
  destruct (JS.isDigit c) eqn:D; simpl; [reflexivity|].
  now rewrite (alnum_not_line_terminator c Hc).
Qed.

Lemma legacy_sanitize_idempotent (s : string) :
  Legacy.sanitizeComponentName (Legacy.sanitizeComponentName s) =
  Legacy.sanitizeComponentName s.
Proof.
  rewrite (legacy_sanitize_of_strip s).
  destruct (SanitizeSpec.strip s) as [|c r] eqn:E; [reflexivity|].
  rewrite legacy_sanitize_of_strip.
  pose proof (sanitize_Sanitized s) as S.
  rewrite (strip_fixed _ (proj1 S)).
  destruct (sanitizeComponentName s) as [|c' r'] eqn:E'.
  - destruct S as [_ []].
  - rewrite <- E'. rewrite Sanitized_fixed; [reflexivity|].
    apply sanitize_Sanitized.
Qed.

(** The legacy sanitizer meets the contract whenever a letter or digit is
    left of the name. *)
Lemma legacy_sanitize_contract (s : string) :
  Legacy.sanitizeComponentName s =
  match SanitizeSpec.strip s with
  | EmptyString => EmptyString
  | String _ _ => SanitizeSpec.sanitize s
  end.
Proof.
  rewrite legacy_sanitize_of_strip, sanitize_of_strip.
  unfold SanitizeSpec.sanitize.
  destruct (SanitizeSpec.strip s); reflexivity.
Qed.

(** C4. When nothing is left of the name, the legacy sanitizer returns
    the empty string where the contract, and the sanitizer of
    [AdvancedCodeGenerator], give "Component". *)
Theorem legacy_sanitize_empty :
  Legacy.sanitizeComponentName "" = "" /\
  Legacy.sanitizeComponentName "- / -" = "" /\
  SanitizeSpec.sanitize "- / -" = "Component" /\
  sanitizeComponentName "- / -" = "Component".
Proof. repeat split; reflexivity. Qed.

(** C3. The name sanitizer is idempotent, in [AdvancedCodeGenerator] and in
    the legacy [CodeGenerator]. *)
Theorem sanitizeComponentName_idempotent (s : string) :
  sanitizeComponentName (sanitizeComponentName s) = sanitizeComponentName s /\
  Legacy.sanitizeComponentName (Legacy.sanitizeComponentName s) =
  Legacy.sanitizeComponentName s.
Proof.
  split.
  - apply Sanitized_fixed, sanitize_Sanitized.
  - apply legacy_sanitize_idempotent.
Qed.

(** ** The accessibility analyzer *)

(** C9. The accessibility analysis reads the node's own attributes only:
    two nodes with the same own fields get the same report, whatever their
    children. *)
Theorem analyzeAccessibility_own_fields (n1 n2 : FigmaNode) :
  Node.own n1 = Node.own n2 ->
  analyzeAccessibility n1 = analyzeAccessibility n2 /\
  Legacy.analyzeAccessibility n1 = Legacy.analyzeAccessibility n2.
Proof.
  destruct n1 as [o1 c1], n2 as [o2 c2]. simpl. intros ->.
  split; reflexivity.
Qed.

Lemma analyzeAccessibility_own_fields_witness :
  Node.own Sample.page = Node.own (Node.mk (Node.own Sample.page) None) /\
  analyzeAccessibility Sample.page =
  analyzeAccessibility (Node.mk (Node.own Sample.page) None).
Proof.
  split; [reflexivity|].
  exact (proj1 (analyzeAccessibility_own_fields Sample.page
                  (Node.mk (Node.own Sample.page) None) eq_refl)).
Defined.

(** The low-contrast branch as written: below 4.5 a warning is pushed and
    the score drops by exactly 10; from 4.5 on nothing is recorded. *)
Lemma analyzeAccessibilityWith_contrast (contrast : FigmaNode -> Num.number)
      (node : FigmaNode) :
  Node.type node = TEXT ->
  let base := analyzeAccessibilityWith (fun _ => 45 # 10) node in
  let report := analyzeAccessibilityWith contrast node in
  AccessibilityReport.suggestions report = AccessibilityReport.suggestions base /\
  if Num.ltb (contrast node) (45 # 10)
  then AccessibilityReport.issues report =
       push (AccessibilityReport.issues base)
         [AccessibilityIssue.mk Severity.warning "Low text contrast"
            (Node.name node) "Increase contrast between text and background"] /\
       AccessibilityReport.score report =
       (AccessibilityReport.score base - 10)%Z
  else report = base.
Proof.
  intros T. unfold analyzeAccessibilityWith. rewrite T. simpl.
  destruct (isImage node), (Num.ltb (contrast node) (45 # 10));
    simpl; repeat split; reflexivity.
Qed.

(** The suggestions come from the interactive-element check alone. *)
Lemma analyzeAccessibility_suggestions (node : FigmaNode) :
  AccessibilityReport.suggestions (analyzeAccessibility node) =
  if isInteractiveElement node
  then ["Ensure keyboard navigation support";
        "Add ARIA labels for screen readers";
        "Use proper focus states"]
  else [].
Proof.
  unfold analyzeAccessibility, analyzeAccessibilityWith.
  destruct (isImage node), (isTEXT (Node.type node)),
    (isInteractiveElement node); reflexivity.
Qed.

(** C6. On a text node of sufficient contrast [AdvancedCodeGenerator]
    records nothing: no issue, no penalty, and no suggestion to verify the
    contrast by hand, which the legacy analyzer does append. *)
Theorem analyzeAccessibility_text_no_suggestion :
  Node.type Sample.label = TEXT /\
  Num.ltb (calculateContrastRatio Sample.label) (45 # 10) = false /\
  analyzeAccessibility Sample.label =
  AccessibilityReport.mk 100 [] [] Wcag.AA /\
  AccessibilityReport.suggestions (Legacy.analyzeAccessibility Sample.label) =
  ["Verify text contrast meets WCAG AA standards"].
Proof. repeat split; reflexivity. Qed.

(** ** The responsiveness analyzer *)

(** With constraints present the report follows the flow layout and the
    deviation from top-left. *)
Lemma analyzeResponsive_with_constraints (node : FigmaNode)
      (c : LayoutConstraint.t) :
  Node.constraints node = Some c ->
  ResponsiveBreakpoints.hasResponsiveDesign (analyzeResponsive node) = true <->
  (Node.layoutMode node = Some "HORIZONTAL" \/
   Node.layoutMode node = Some "VERTICAL") \/
  (LayoutConstraint.horizontal c <> "LEFT" \/
   LayoutConstraint.vertical c <> "TOP").
Proof.
  intros C. simpl. unfold hasFlexLayout, hasConstraints, strIs. rewrite C. simpl.
  rewrite !orb_true_iff, !negb_true_iff.
  assert (E : forall (o : option string) (lit : string),
             match o with Some s => String.eqb s lit | None => false end = true
             <-> o = Some lit).
  { intros [s|] lit; [rewrite String.eqb_eq|]; split; congruence. }
  rewrite !E, <- !not_true_iff_false, !String.eqb_eq. reflexivity.
Qed.

(** Without constraints the report is positive, whatever the layout. *)
Lemma analyzeResponsive_without_constraints (node : FigmaNode) :
  Node.constraints node = None ->
  ResponsiveBreakpoints.hasResponsiveDesign (analyzeResponsive node) = true /\
  ResponsiveBreakpoints.hasResponsiveDesign (Legacy.analyzeResponsive node)
  = true.
Proof.
  intros C. simpl. unfold hasConstraints. rewrite C. simpl.
  now rewrite orb_true_r.
Qed.

(** C5. A node without a flow layout and without constraints is reported
    as responsive, by both analyzers. *)
Theorem analyzeResponsive_unspecified_constraints :
  Node.layoutMode Sample.label = None /\
  Node.constraints Sample.label = None /\
  ResponsiveBreakpoints.hasResponsiveDesign (analyzeResponsive Sample.label)
  = true /\
  ResponsiveBreakpoints.hasResponsiveDesign
    (Legacy.analyzeResponsive Sample.label) = true.
Proof. repeat split; reflexivity. Qed.

(** ** Numbers: truthiness and rounding *)

Lemma truthy_zero (z : Q) : (z == 0)%Q -> Num.truthy z = false.
Proof.
  unfold Qeq, Num.truthy. simpl. intros H.
  rewrite Z.mul_1_r in H. now rewrite H.
Qed.

Lemma truthy_positive (z : Q) : (0 < z)%Q -> Num.truthy z = true.
Proof.
  unfold Qlt, Num.truthy. simpl. intros H.
  destruct (Z.eqb_spec (Qnum z) 0); [lia | reflexivity].
Qed.

Lemma whenNum_zero {X} (z : Q) (f : Q -> list X) :
  (z == 0)%Q -> whenNum (Some z) f = [].
Proof. intros H. unfold whenNum. now rewrite (truthy_zero z H). Qed.

Lemma whenNum_positive {X} (z : Q) (f : Q -> list X) :
  (0 < z)%Q -> whenNum (Some z) f = f z.
Proof. intros H. unfold whenNum. now rewrite (truthy_positive z H). Qed.

Lemma floor_ge (z : Z) (x : Q) : (z <= Qfloor x)%Z <-> (inject_Z z <= x)%Q.
Proof.
  split; intros H.
  - apply Qle_trans with (inject_Z (Qfloor x)); [|apply Qfloor_le].
    now rewrite <- Zle_Qle.
  - destruct (Z_le_gt_dec z (Qfloor x)) as [L|G]; [exact L|exfalso].
    assert (B : (Qfloor x + 1 <= z)%Z) by lia.
    rewrite Zle_Qle in B.
    pose proof (Qlt_floor x) as U.
    apply (Qlt_irrefl x). eapply Qlt_le_trans; [exact U|].
    eapply Qle_trans; [exact B|exact H].
Qed.

(** [Math.round(px / 4)] reaches [z] exactly from [4 z - 2] pixels on. *)
Lemma round_ge (z : Z) (px : Q) :
  (z <= Num.round (px / (4 # 1))%Q)%Z <-> (inject_Z (4 * z - 2) <= px)%Q.
Proof.
  unfold Num.round. rewrite floor_ge.
  change (px / (4 # 1))%Q with (px * (1 # 4))%Q.
  replace (4 * z - 2)%Z with (4 * z + -2)%Z by lia.
  rewrite inject_Z_plus, inject_Z_mult.
  change (inject_Z 4) with (4 # 1)%Q. change (inject_Z (-2)) with (-2 # 1)%Q.
  split; intros H; lra.
Qed.

(** ** The utility-class dialect *)

Lemma pxToTailwindSpacing_positive (px : Q) :
  (0 < px)%Q -> pxToTailwindSpacing px = roundedToken px.
Proof.
  intros P. unfold pxToTailwindSpacing, roundedToken.
  assert (N : (0 <= Num.round (px / (4 # 1))%Q)%Z).
  { apply round_ge. simpl. change (inject_Z (-2)) with (-2 # 1)%Q. lra. }
  destruct (Z.leb_spec (Num.round (px / (4 # 1))%Q) 0) as [L|G].
  - assert (E : Num.round (px / (4 # 1))%Q = 0%Z) by lia.
    rewrite E. reflexivity.
  - reflexivity.
Qed.

Lemma In_push_l {X} (x : X) xs ys : In x xs -> In x (push xs ys).
Proof. intros H. apply in_or_app. now left. Qed.

Lemma In_push_r {X} (x : X) xs ys : In x ys -> In x (push xs ys).
Proof. intros H. apply in_or_app. now right. Qed.

Ltac find_class :=
  repeat match goal with
         | |- In _ (match ?o with Some _ => _ | None => _ end) => destruct o
         | |- In ?x (push _ [?x]) => apply In_push_r; left; reflexivity
         | |- In _ (push _ _) => apply In_push_l
         end.

(** C7, as the code has it.  For a positive item spacing or padding of
    [px] pixels the class carries the step [Math.round(px / 4)], the nearest
    integer with halves upwards, and the bracketed pixel value exactly when
    that rounded step exceeds 96, that is from 386 pixels on. *)
Theorem pxToTailwindSpacing_rounds (node : FigmaNode) (px : Num.number) :
  (0 < px)%Q ->
  pxToTailwindSpacing px = roundedToken px /\
  ((Num.round (px / (4 # 1))%Q <=? 96)%Z = false <-> (386 # 1 <= px)%Q) /\
  (Node.itemSpacing node = Some px ->
   In ("gap-" ++ roundedToken px) (tailwindClassList node)) /\
  (Node.paddingLeft node = Some px ->
   In ("pl-" ++ roundedToken px) (tailwindClassList node)) /\
  (Node.paddingRight node = Some px ->
   In ("pr-" ++ roundedToken px) (tailwindClassList node)) /\
  (Node.paddingTop node = Some px ->
   In ("pt-" ++ roundedToken px) (tailwindClassList node)) /\
  (Node.paddingBottom node = Some px ->
   In ("pb-" ++ roundedToken px) (tailwindClassList node)).
Proof.
  intros P. pose proof (pxToTailwindSpacing_positive px P) as E.
  split; [exact E|]. split.
  - rewrite Z.leb_gt.
    assert (R : (96 < Num.round (px / (4 # 1))%Q <->
                 97 <= Num.round (px / (4 # 1))%Q)%Z) by lia.
    rewrite R, round_ge. reflexivity.
  - repeat split; intros H; unfold tailwindClassList; rewrite H;
      rewrite (whenNum_positive px _ P), E; find_class.
Qed.

Lemma pxToTailwindSpacing_rounds_witness :
  (0 < 10 # 1)%Q /\
  pxToTailwindSpacing (10 # 1) = "3" /\
  In "gap-3" (tailwindClassList (Sample.spaced (10 # 1))).
Proof.
  split; [reflexivity|].
  pose proof (pxToTailwindSpacing_rounds (Sample.spaced (10 # 1)) (10 # 1)
                eq_refl) as [E [_ [G _]]].
  split; [exact E | exact (G eq_refl)].
Defined.

(** C7, as the specification has it, fails: 3 pixels give step 1 where the
    floor is 0, and 385 pixels give step 96 where the quotient 96.25 already
    exceeds 96. *)
Lemma spacing_step_not_floored :
  (0 < 3 # 1)%Q /\
  tailwindClassList (Sample.spaced (3 # 1)) = ["gap-1"] /\
  SpacingSpec.token (3 # 1) = "0" /\
  pxToTailwindSpacing (3 # 1) <> SpacingSpec.token (3 # 1) /\
  (0 < 385 # 1)%Q /\
  tailwindClassList (Sample.spaced (385 # 1)) = ["gap-96"] /\
  SpacingSpec.token (385 # 1) = "[385px]" /\
  pxToTailwindSpacing (385 # 1) <> SpacingSpec.token (385 # 1).
Proof. repeat split; vm_compute; congruence. Qed.

(** The class of a colour starts with [bg-], the class of a radius with
    [rounded]. *)
Lemma colorToTailwind_bg (color : Color.t) :
  exists rest, colorToTailwind color = "bg-" ++ rest.
Proof.
  unfold colorToTailwind.
  repeat match goal with
         | |- context [if ?b then _ else _] => destruct b
         end; eexists; reflexivity.
Qed.

Lemma borderRadiusToTailwind_rounded (radius : Q) :
  exists rest, borderRadiusToTailwind radius = "rounded" ++ rest.
Proof.
  unfold borderRadiusToTailwind.
  repeat match goal with
         | |- context [if ?b then _ else _] => destruct b
         end; eexists; reflexivity.
Qed.

Lemma hasClassFor_push attr xs ys :
  hasClassFor attr (push xs ys) = hasClassFor attr xs || hasClassFor attr ys.
Proof. apply existsb_app. Qed.

Lemma hasStyleFor_push attr xs ys :
  hasStyleFor attr (push xs ys) = hasStyleFor attr xs || hasStyleFor attr ys.
Proof. apply existsb_app. Qed.

(** one segment of the class list or of the style record holds nothing for
    the attribute *)
Ltac class_leaf :=
  match goal with
  | |- context [whenNum ?o _] =>
      let x := fresh "x" in
      destruct o as [x|]; unfold whenNum;
      [destruct (Num.truthy x)|]; try reflexivity;
      try (destruct (borderRadiusToTailwind_rounded x) as [rest ->]; reflexivity)
  | |- context [if ?b then _ else _] =>
      destruct b; try reflexivity;
      match goal with
      | |- context [if ?b' then _ else _] => destruct b'; reflexivity
      end
  end.

(** C10. A spacing, padding or corner radius of exactly 0 is treated as an
    absent attribute: the class list, the joined classes and the style
    records are those of the node without the attribute, and they hold no
    class token and no style entry for it. *)
Theorem zero_size_attribute_omitted (attr : SizeAttr) (node : FigmaNode)
        (z : Num.number) :
  getAttr attr node = Some z -> (z == 0)%Q ->
  let omitted := setAttr attr None node in
  tailwindClassList node = tailwindClassList omitted /\
  generateTailwindClasses node = generateTailwindClasses omitted /\
  extractAllStyles node = extractAllStyles omitted /\
  Legacy.extractStyles node = Legacy.extractStyles omitted /\
  hasClassFor attr (tailwindClassList node) = false /\
  hasStyleFor attr (extractAllStyles node) = false /\
  hasStyleFor attr (Legacy.extractStyles node) = false.
Proof.
  intros G Z0 omitted.
  assert (E1 : tailwindClassList node = tailwindClassList omitted).
  { subst omitted. destruct node as [o c]. unfold tailwindClassList.
    destruct attr; simpl in *; rewrite G, (whenNum_zero z _ Z0); reflexivity. }
  assert (E2 : extractAllStyles node = extractAllStyles omitted).
  { subst omitted. destruct node as [o c]. unfold extractAllStyles.
    destruct attr; simpl in *; try reflexivity;
      rewrite G, (whenNum_zero z _ Z0); reflexivity. }
  assert (E3 : Legacy.extractStyles node = Legacy.extractStyles omitted).
  { subst omitted. destruct node as [o c]. unfold Legacy.extractStyles.
    destruct attr; simpl in *; try reflexivity;
      rewrite G, (whenNum_zero z _ Z0); reflexivity. }
  repeat split; try assumption.
  - unfold generateTailwindClasses. now rewrite E1.
  - destruct node as [o c]. unfold tailwindClassList.
    destruct attr; simpl in G |- *; rewrite G, (whenNum_zero z _ Z0);
      destruct (Node.absoluteBoundingBox o),
               (Node.backgroundColor o) as [color|];
      rewrite !hasClassFor_push, !orb_false_iff; repeat split;
      try (destruct (colorToTailwind_bg color) as [rest ->]);
      try reflexivity; class_leaf.
  - destruct node as [o c]. unfold extractAllStyles.
    destruct attr; simpl in G |- *; try rewrite G, (whenNum_zero z _ Z0);
      destruct (Node.absoluteBoundingBox o),
               (Node.backgroundColor o) as [color|],
               (truthyStr (Node.layoutMode o));
      rewrite ?hasStyleFor_push, ?orb_false_iff; repeat split;
      try reflexivity; class_leaf.
  - destruct node as [o c]. unfold Legacy.extractStyles.
    destruct attr; simpl in G |- *; try rewrite G, (whenNum_zero z _ Z0);
      destruct (Node.absoluteBoundingBox o),
               (Node.backgroundColor o) as [color|];
      rewrite ?hasStyleFor_push, ?orb_false_iff; repeat split;
      try reflexivity; class_leaf.
Qed.

Lemma zero_size_attribute_omitted_witness :
  getAttr ItemSpacing (Sample.spaced (0 # 1)) = Some (0 # 1) /\
  (0 # 1 == 0)%Q /\
  generateTailwindClasses (Sample.spaced (0 # 1)) =
  generateTailwindClasses (setAttr ItemSpacing None (Sample.spaced (0 # 1))) /\
  hasClassFor ItemSpacing (tailwindClassList (Sample.spaced (0 # 1))) = false.
Proof.
  split; [reflexivity|]. split; [reflexivity|].
  pose proof (zero_size_attribute_omitted ItemSpacing (Sample.spaced (0 # 1))
                (0 # 1) eq_refl eq_refl) as [_ [E [_ [_ [H _]]]]].
  split; [exact E | exact H].
Defined.

(** ** Runs of the generation entry point *)

Lemma generateSingleComponent_run options customCode node componentName
      (clock : Clock) :
  generateSingleComponent options customCode node componentName clock =
  match generateJSX options customCode node
          (sanitizeComponentName componentName) with
  | inl e => inl e
  | inr jsx =>
      inr (artifact options customCode node componentName jsx
             (clock 0%nat) (clock 1%nat),
           fun n => clock (S (S n)))
  end.
Proof.
  unfold generateSingleComponent, bind, now, lift, ret.
  destruct (generateJSX _ _ _ _); reflexivity.
Qed.

Lemma bind_ext {X Y} (m : M X) (k1 k2 : X -> M Y) (c : Clock) :
  (forall x d, k1 x d = k2 x d) -> bind m k1 c = bind m k2 c.
Proof.
  intros E. unfold bind. destruct (m c) as [e|[x d]]; [reflexivity|apply E].
Qed.

Lemma forEach_ext {X S} (f g : X -> S -> M S) :
  (forall x a c, f x a c = g x a c) ->
  forall xs a c, forEach f xs a c = forEach g xs a c.
Proof.
  intros E xs. induction xs as [|x r IH]; intros a c; simpl; [reflexivity|].
  unfold bind. rewrite E.
  destruct (g x a c) as [e|[a' c']]; [reflexivity|apply IH].
Qed.

(** *** Two runs on the same input *)

Lemma sameOutcome_bind {X Y} (R : X -> X -> Prop) (S : Y -> Y -> Prop)
      (m1 m2 : M X) (k1 k2 : X -> M Y) (c1 c2 : Clock) :
  sameOutcome R (m1 c1) (m2 c2) ->
  (forall x1 x2 d1 d2, R x1 x2 -> sameOutcome S (k1 x1 d1) (k2 x2 d2)) ->
  sameOutcome S (bind m1 k1 c1) (bind m2 k2 c2).
Proof.
  unfold bind, sameOutcome. intros H K.
  destruct (m1 c1) as [e1|[x1 d1]], (m2 c2) as [e2|[x2 d2]];
    try contradiction; [exact H|].
  apply K, H.
Qed.

Lemma sameOutcome_forEach {X S} (R : S -> S -> Prop) (body : X -> S -> M S) :
  (forall x a1 a2 c1 c2,
      R a1 a2 -> sameOutcome R (body x a1 c1) (body x a2 c2)) ->
  forall xs a1 a2 c1 c2,
    R a1 a2 -> sameOutcome R (forEach body xs a1 c1) (forEach body xs a2 c2).
Proof.
  intros B xs. induction xs as [|x r IH]; intros a1 a2 c1 c2 H; simpl.
  - exact H.
  - eapply sameOutcome_bind; [apply B, H|].
    intros; now apply IH.
Qed.

Lemma sameButTime_push xs ys x y :
  Forall2 sameButTime xs ys -> sameButTime x y ->
  Forall2 sameButTime (push xs [x]) (push ys [y]).
Proof.
  intros H1 H2. apply Forall2_app; [exact H1|].
  constructor; [exact H2|constructor].
Qed.

(** One artifact: the clock reaches the generation time only. *)
Lemma generateSingleComponent_deterministic options customCode node name c1 c2 :
  sameOutcome sameButTime
    (generateSingleComponent options customCode node name c1)
    (generateSingleComponent options customCode node name c2).
Proof.
  rewrite !generateSingleComponent_run.
  destruct (generateJSX _ _ _ _); simpl; [reflexivity|].
  unfold sameButTime; simpl. repeat split.
Qed.

Lemma pushGenerated_deterministic options customCode node name acc1 acc2 c1 c2 :
  Forall2 sameButTime acc1 acc2 ->
  sameOutcome (Forall2 sameButTime)
    ((generatedComponent <- generateSingleComponent options customCode node name ;;
      ret (push acc1 [generatedComponent])) c1)
    ((generatedComponent <- generateSingleComponent options customCode node name ;;
      ret (push acc2 [generatedComponent])) c2).
Proof.
  intros H. eapply sameOutcome_bind.
  - apply generateSingleComponent_deterministic.
  - intros x1 x2 d1 d2 Hx. simpl. now apply sameButTime_push.
Qed.

(** C1. Determinism.  For a fixed document, options and custom code, two
    invocations of [generateComponents], at whatever times the clock is read,
    end the same way: both throw the same exception, or both return arrays
    of the same length whose artifacts agree in [id], [name], [jsx], [css],
    [typescript], [accessibility], [responsive] and every metadata field but
    [generationTime]. *)
Theorem generateComponents_deterministic
        (figmaData : FigmaApiResponse.t) (options : Options.t)
        (customCode : CustomCodeInputs.t) (clock1 clock2 : Clock) :
  sameOutcome (Forall2 sameButTime)
    (generateComponents figmaData options customCode clock1)
    (generateComponents figmaData options customCode clock2).
Proof.
  unfold generateComponents.
  apply sameOutcome_bind with (R := Forall2 sameButTime).
  - apply sameOutcome_forEach; [|constructor].
    intros [key component] a1 a2 c1 c2 H.
    destruct (findNodeById figmaData (FigmaComponent.key component)).
    + now apply pushGenerated_deterministic.
    + exact H.
  - intros x1 x2 d1 d2 H.
    rewrite (Forall2_length H).
    destruct (List.length x2 =? 0)%nat.
    + apply sameOutcome_forEach; [|exact H].
      intros frame a1 a2 c1 c2 Ha. now apply pushGenerated_deterministic.
    + exact H.
Qed.

(** The generation time does depend on the clock. *)
Example generationTime_follows_clock :
  option_map
    (map (fun g => ComponentMetadata.generationTime
                     (GeneratedComponent.metadata g)))
    (match generateComponents Sample.file (Sample.react "tailwind")
             CustomCodeInputs.empty (fun n => (7 * Z.of_nat n)%Z) with
     | inr (generated, _) => Some generated
     | inl _ => None
     end) = Some [7%Z].
Proof. vm_compute. reflexivity. Qed.

(** *** The targets of a run *)

Lemma forEach_length options customCode ts :
  forall acc c l c',
    forEach (pushGenerated options customCode) ts acc c = inr (l, c') ->
    List.length l = (List.length acc + List.length ts)%nat.
Proof.
  induction ts as [|t r IH]; intros acc c l c' H; simpl in H.
  - unfold ret in H. inversion H; subst. simpl. lia.
  - unfold bind at 1 in H. unfold pushGenerated at 1 in H.
    unfold bind at 1 in H.
    destruct (generateSingleComponent _ _ _ _ _) as [e|[g d]]; [discriminate|].
    unfold ret at 1 in H. apply IH in H. rewrite H.
    unfold push. rewrite length_app. simpl. lia.
Qed.

Lemma forEach_entries figmaData options customCode
      (entries : list (string * FigmaComponent.t)) :
  forall acc c,
    forEach
      (fun '(key, component) components =>
         match findNodeById figmaData (FigmaComponent.key component) with
         | Some node =>
             generatedComponent <-
               generateSingleComponent options customCode node
                 (FigmaComponent.name component) ;;
             ret (push components [generatedComponent])
         | None => ret components
         end) entries acc c =
    forEach (pushGenerated options customCode)
      (flat_map
         (fun entry =>
            match findNodeById figmaData (FigmaComponent.key (snd entry)) with
            | Some node => [(node, FigmaComponent.name (snd entry))]
            | None => []
            end) entries) acc c.
Proof.
  induction entries as [|[key component] r IH]; intros acc c; [reflexivity|].
  cbn [forEach flat_map snd].
  destruct (findNodeById figmaData (FigmaComponent.key component)) as [node|].
  - cbn [app forEach]. apply bind_ext. intros; apply IH.
  - cbn [app]. unfold bind at 1, ret at 1. apply IH.
Qed.

Lemma forEach_frames options customCode (frames : list FigmaNode) :
  forall acc c,
    forEach
      (fun (frame : FigmaNode) components =>
         generatedComponent <-
           generateSingleComponent options customCode frame (Node.name frame) ;;
         ret (push components [generatedComponent])) frames acc c =
    forEach (pushGenerated options customCode)
      (map (fun frame : FigmaNode => (frame, Node.name frame)) frames) acc c.
Proof.
  induction frames as [|f r IH]; intros acc c; [reflexivity|].
  cbn [forEach map]. apply bind_ext. intros; apply IH.
Qed.

(** [generateComponents] is the loop over its targets: a declaration that
    does not resolve adds no artifact and raises nothing. *)
Lemma generateComponents_targets figmaData options customCode clock :
  generateComponents figmaData options customCode clock =
  forEach (pushGenerated options customCode) (targets figmaData) [] clock.
Proof.
  unfold generateComponents, targets, resolved.
  unfold bind at 1. rewrite forEach_entries.
  destruct (flat_map _ _) as [|t ts] eqn:E.
  - cbn [forEach]. unfold ret at 1. cbn [List.length Nat.eqb].
    apply forEach_frames.
  - destruct (forEach _ (t :: ts) [] clock) as [e|[l d]] eqn:F; [reflexivity|].
    apply forEach_length in F. cbn [List.length] in F.
    destruct l; [discriminate|reflexivity].
Qed.

Lemma resolved_withoutUnresolved figmaData :
  resolved (withoutUnresolved figmaData) = resolved figmaData.
Proof.
  unfold resolved, withoutUnresolved, findNodeById.
  cbn [FigmaApiResponse.document FigmaApiResponse.components].
  destruct (FigmaApiResponse.components figmaData) as [entries|];
    [|reflexivity].
  cbn [option_map].
  induction entries as [|e r IH]; [reflexivity|].
  cbn [filter flat_map]. unfold resolves at 1, findNodeById.
  destruct (search _ _) as [node|] eqn:S.
  - cbn [flat_map]. rewrite S. now rewrite IH.
  - exact IH.
Qed.

(** Whatever the options, the declarations that do not resolve can be
    removed from the document without changing the run. *)
Lemma unresolved_components_skipped figmaData options customCode clock :
  generateComponents figmaData options customCode clock =
  generateComponents (withoutUnresolved figmaData) options customCode clock.
Proof.
  rewrite !generateComponents_targets. unfold targets.
  now rewrite resolved_withoutUnresolved.
Qed.

(** *** The react framework *)

Lemma generateSingleComponent_react options customCode node name clock :
  Options.framework options = "react" ->
  exists jsx,
    generateSingleComponent options customCode node name clock =
    inr (artifact options customCode node name jsx (clock 0%nat) (clock 1%nat),
         fun n => clock (S (S n))).
Proof.
  intros R. rewrite generateSingleComponent_run.
  unfold generateJSX. rewrite R.
  change (String.eqb "react" "react") with true. cbv iota.
  eexists. reflexivity.
Qed.

Lemma forEach_react options customCode :
  Options.framework options = "react" ->
  forall ts acc c,
  exists news c',
    forEach (pushGenerated options customCode) ts acc c
    = inr (push acc news, c') /\
    Forall2 (generatedFrom options customCode) news ts.
Proof.
  intros R ts. induction ts as [|t r IH]; intros acc c.
  - exists [], c. split; [|constructor].
    cbn [forEach]. unfold ret, push. now rewrite app_nil_r.
  - destruct (generateSingleComponent_react options customCode (fst t) (snd t)
                c R) as [jsx Run].
    set (g := artifact options customCode (fst t) (snd t) jsx
                (c 0%nat) (c 1%nat)) in Run.
    destruct (IH (push acc [g]) (fun n => c (S (S n)))) as [news [c' [E F]]].
    exists (g :: news), c'. split.
    + cbn [forEach]. unfold bind at 1. unfold pushGenerated at 1.
      unfold bind at 1. rewrite Run. unfold ret at 1.
      rewrite E. unfold push. now rewrite <- app_assoc.
    + constructor; [|exact F]. exists c. unfold outcome. now rewrite Run.
Qed.

(** With the react framework the call returns, with one artifact for each
    target in order: for each declared component that resolves, when there
    is one. *)
Lemma generateComponents_react figmaData options customCode clock :
  Options.framework options = "react" ->
  exists generated clock',
    generateComponents figmaData options customCode clock
    = inr (generated, clock') /\
    Forall2 (generatedFrom options customCode) generated (targets figmaData).
Proof.
  intros R. rewrite generateComponents_targets.
  destruct (forEach_react options customCode R (targets figmaData) [] clock)
    as [news [c' [E F]]].
  exists news, c'. split; [exact E | exact F].
Qed.

(** C8. With the vue framework the call fails although a declared
    component resolves: [generateJSX] throws on the first target. *)
Theorem resolved_component_fails_under_vue :
  supportedOptions Sample.vue = true /\
  map (fun target : FigmaNode * string => Node.id (fst target))
    (resolved Sample.file) = ["0:1"] /\
  outcome (generateComponents Sample.file Sample.vue CustomCodeInputs.empty
             Sample.clock)
  = inl (ReferenceError "jsx is not defined") /\
  exists generated,
    outcome (generateComponents Sample.file (Sample.react "tailwind")
               CustomCodeInputs.empty Sample.clock) = inr [generated] /\
    GeneratedComponent.id generated = "0:1".
Proof.
  repeat split; try (vm_compute; reflexivity).
  eexists. split; vm_compute; reflexivity.
Qed.

(** *** Options the generator does not tell apart *)

Lemma Node_tree_ind (P : FigmaNode -> Prop) :
  (forall o, P (Node.mk o None)) ->
  (forall o cs, Forall P cs -> P (Node.mk o (Some cs))) ->
  forall n, P n.
Proof.
  intros Hleaf Hnode.
  refine (fix IH (n : FigmaNode) : P n :=
            match n with
            | Node.mk o None => Hleaf o
            | Node.mk o (Some cs) =>
                Hnode o cs
                  ((fix each (l : list FigmaNode) : Forall P l :=
                      match l with
                      | [] => Forall_nil P
                      | x :: r => Forall_cons x (IH x) (each r)
                      end) cs)
            end).
Qed.

Section TwoOptions.

Variables o1 o2 : Options.t.
Variable customCode : CustomCodeInputs.t.
Hypothesis same_framework : Options.framework o1 = Options.framework o2.
Hypothesis same_typescript : Options.typescript o1 = Options.typescript o2.
Hypothesis not_tailwind1 : String.eqb (Options.styling o1) "tailwind" = false.
Hypothesis not_tailwind2 : String.eqb (Options.styling o2) "tailwind" = false.
Hypothesis not_styled1 :
  String.eqb (Options.styling o1) "styled-components" = false.
Hypothesis not_styled2 :
  String.eqb (Options.styling o2) "styled-components" = false.

Lemma generateClassName_same node :
  generateClassName o1 node = generateClassName o2 node.
Proof.
  unfold generateClassName, isTailwind.
  now rewrite not_tailwind1, not_tailwind2.
Qed.

Lemma generateInlineStyles_same node :
  generateInlineStyles o1 node = generateInlineStyles o2 node.
Proof.
  unfold generateInlineStyles, isTailwind.
  now rewrite not_tailwind1, not_tailwind2.
Qed.

Lemma generateChildren_same node :
  generateChildren o1 node = generateChildren o2 node.
Proof.
  induction node as [o|o cs IH] using Node_tree_ind; [reflexivity|].
  destruct cs as [|c cs']; [reflexivity|].
  cbn [generateChildren]. f_equal.
  apply map_ext_in. intros child Hin.
  rewrite Forall_forall in IH.
  now rewrite generateClassName_same, generateInlineStyles_same,
    (IH child Hin).
Qed.

Lemma generateJSX_same node name :
  generateJSX o1 customCode node name = generateJSX o2 customCode node name.
Proof.
  unfold generateJSX.
  now rewrite same_framework, same_typescript, generateChildren_same,
    generateClassName_same, generateInlineStyles_same.
Qed.

Lemma extractDependencies_same node :
  extractDependencies o1 node = extractDependencies o2 node.
Proof.
  unfold extractDependencies.
  now rewrite same_typescript, not_styled1, not_styled2.
Qed.

(** Both stylings take the branch of [generateCSSModules] or that of
    [generatePlainCSS], which return the same rules. *)
Lemma generateCSS_same node name :
  generateCSS o1 customCode node name = generateCSS o2 customCode node name.
Proof.
  unfold generateCSS, isTailwind, generateCSSModules, generatePlainCSS.
  rewrite not_tailwind1, not_tailwind2, not_styled1, not_styled2.
  destruct (String.eqb (Options.styling o1) "css-modules"),
           (String.eqb (Options.styling o2) "css-modules"); reflexivity.
Qed.

Lemma generateSingleComponent_same node name clock :
  generateSingleComponent o1 customCode node name clock =
  generateSingleComponent o2 customCode node name clock.
Proof.
  rewrite !generateSingleComponent_run, generateJSX_same.
  destruct (generateJSX _ _ _ _); [reflexivity|].
  unfold artifact, generateMetadata.
  now rewrite generateCSS_same, same_typescript, extractDependencies_same.
Qed.

End TwoOptions.

(** C2, as the specification has it, fails: the styling [sass] is outside
    the supported configurations, and the call returns an artifact, with the
    rule block of the plain dialect. *)
Lemma unsupported_styling_accepted :
  supportedOptions (Sample.react "sass") = false /\
  exists generated,
    outcome (generateComponents Sample.file (Sample.react "sass")
               CustomCodeInputs.empty Sample.clock) = inr [generated] /\
    GeneratedComponent.name generated = "Page" /\
    GeneratedComponent.css generated = ".page {" ++ nl ++ nl ++ "}".
Proof.
  split; [reflexivity|].
  eexists. repeat split; vm_compute; reflexivity.
Qed.

(** C2, as the code has it.  The options are not validated.  With the react
    framework a styling outside the four dialects raises no error: the call
    returns one artifact for each target, and the run is the run under
    [plain-css]. *)
Theorem unsupported_styling_as_plain_css
        (figmaData : FigmaApiResponse.t) (options : Options.t)
        (customCode : CustomCodeInputs.t) (clock : Clock) :
  Options.framework options = "react" ->
  supportedStyling (Options.styling options) = false ->
  generateComponents figmaData options customCode clock =
  generateComponents figmaData (withStyling "plain-css" options) customCode
    clock /\
  exists generated clock',
    generateComponents figmaData options customCode clock
    = inr (generated, clock') /\
    List.length generated = List.length (targets figmaData).
Proof.
  intros R U. unfold supportedStyling in U.
  rewrite !orb_false_iff in U. destruct U as [[[T _] S] _].
  split.
  - rewrite !generateComponents_targets. apply forEach_ext.
    intros t acc c. unfold pushGenerated, bind.
    now rewrite (generateSingleComponent_same options
                   (withStyling "plain-css" options) customCode
                   eq_refl eq_refl T eq_refl S eq_refl).
  - destruct (generateComponents_react figmaData options customCode clock R)
      as [generated [c' [E F]]].
    exists generated, c'. split; [exact E | exact (Forall2_length F)].
Qed.

Lemma unsupported_styling_as_plain_css_witness :
  Options.framework (Sample.react "sass") = "react" /\
  supportedStyling (Options.styling (Sample.react "sass")) = false /\
  generateComponents Sample.file (Sample.react "sass") CustomCodeInputs.empty
    Sample.clock =
  generateComponents Sample.file (Sample.react "plain-css")
    CustomCodeInputs.empty Sample.clock.
Proof.
  split; [reflexivity|]. split; [reflexivity|].
  exact (proj1 (unsupported_styling_as_plain_css Sample.file
                  (Sample.react "sass") CustomCodeInputs.empty Sample.clock
                  eq_refl eq_refl)).
Defined.

(* ================================================================== *)
(** * Further properties of the code *)

(** ** Searching the tree *)

Lemma find_app {X} (p : X -> bool) (l1 l2 : list X) :
  find p (l1 ++ l2) =
  match find p l1 with
  | Some x => Some x
  | None => find p l2
  end.
Proof.
  induction l1 as [|x r IH]; simpl; [reflexivity|].
  destruct (p x); [reflexivity | exact IH].
Qed.

Lemma search_preorder (id : string) (node : FigmaNode) :
  search id node = find (hasId id) (preorder node).
Proof.
  induction node as [o|o cs IH] using Node_tree_ind.
  - cbn [search preorder find Node.own]. unfold hasId. cbn [Node.own].
    destruct (String.eqb (Node.id o) id); reflexivity.
  - cbn [search preorder find]. unfold hasId at 1. cbn [Node.own].
    destruct (String.eqb (Node.id o) id); [reflexivity|].
    induction IH as [|c r Hc _ IHr]; [reflexivity|].
    cbn [flat_map]. rewrite find_app, <- Hc.
    destruct (search id c); [reflexivity | exact IHr].
Qed.

(** X1. [findNodeById] returns the first node, in pre-order, whose id is
    the one looked for. *)
Theorem findNodeById_first_in_preorder
        (figmaData : FigmaApiResponse.t) (id : string) :
  findNodeById figmaData id =
  find (hasId id) (preorder (FigmaApiResponse.document figmaData)).
Proof. apply search_preorder. Qed.

(** X2. A node [findNodeById] returns is a node of the document and has the
    id looked for; it returns nothing exactly when no node of the document
    has that id. *)
Theorem findNodeById_sound_complete
        (figmaData : FigmaApiResponse.t) (id : string) :
  (forall found, findNodeById figmaData id = Some found ->
     Node.id found = id /\
     In found (preorder (FigmaApiResponse.document figmaData))) /\
  (findNodeById figmaData id = None <->
   forall node, In node (preorder (FigmaApiResponse.document figmaData)) ->
                Node.id node <> id).
Proof.
  unfold findNodeById. rewrite search_preorder. split.
  - intros found H. apply find_some in H. destruct H as [I E].
    split; [now apply String.eqb_eq | exact I].
  - split.
    + intros H node I E.
      pose proof (find_none _ _ H node I) as N. unfold hasId in N.
      rewrite E, String.eqb_refl in N. discriminate.
    + intros H. destruct (find _ _) as [found|] eqn:F; [|reflexivity].
      apply find_some in F. destruct F as [I E].
      apply String.eqb_eq in E. now destruct (H found I).
Qed.

Lemma traverse_preorder (node : FigmaNode) :
  traverse node = filter isMainFrame (preorder node).
Proof.
  induction node as [o|o cs IH] using Node_tree_ind.
  - cbn [traverse preorder filter]. unfold isMainFrame. cbn.
    now rewrite andb_false_r.
  - cbn [traverse preorder filter]. unfold isMainFrame at 1.
    cbn [Node.own Node.children].
    assert (E : flat_map traverse cs
                = filter isMainFrame (flat_map preorder cs)).
    { induction IH as [|c r Hc _ IHr]; [reflexivity|].
      cbn [flat_map]. now rewrite filter_app, Hc, IHr. }
    rewrite E. unfold push. cbn [Node.own Node.type].
    destruct (isFRAME (Node.type o)); destruct cs; reflexivity.
Qed.

(** X3. [findMainFrames] returns, in pre-order, every frame of the tree
    that has at least one child, the frames nested in another frame
    included, and nothing else. *)
Theorem findMainFrames_preorder (node : FigmaNode) :
  findMainFrames node = filter isMainFrame (preorder node) /\
  Forall (fun frame : FigmaNode =>
            Node.type frame = FRAME /\ (0 < childCount frame)%nat)
    (findMainFrames node) /\
  (forall frame, In frame (preorder node) -> Node.type frame = FRAME ->
                 (0 < childCount frame)%nat -> In frame (findMainFrames node)).
Proof.
  unfold findMainFrames. rewrite traverse_preorder.
  split; [reflexivity|]. split.
  - apply Forall_forall. intros frame I. apply filter_In in I.
    destruct I as [_ M]. unfold isMainFrame in M. unfold childCount.
    apply andb_true_iff in M. destruct M as [F C].
    split.
    + destruct (Node.type frame); (reflexivity || discriminate).
    + destruct (Node.children frame); [now apply Nat.ltb_lt|discriminate].
  - intros frame I T C. apply filter_In. split; [exact I|].
    unfold isMainFrame. rewrite T. unfold childCount in C. cbn [isFRAME andb].
    destruct (Node.children frame); [now apply Nat.ltb_lt|lia].
Qed.

(** ** The generation entry point *)

Lemma generatedFrom_artifact options customCode generated target :
  generatedFrom options customCode generated target ->
  exists jsx startTime endTime,
    generateJSX options customCode (fst target)
      (sanitizeComponentName (snd target)) = inr jsx /\
    generated = artifact options customCode (fst target) (snd target) jsx
                  startTime endTime.
Proof.
  intros [clock H]. rewrite generateSingleComponent_run in H.
  destruct (generateJSX _ _ _ _) as [e|jsx]; [discriminate|].
  cbn in H. inversion H. now exists jsx, (clock 0%nat), (clock 1%nat).
Qed.

Lemma generateJSX_not_react options customCode node name :
  Options.framework options <> "react" ->
  generateJSX options customCode node name
  = inl (ReferenceError "jsx is not defined").
Proof.
  intros N. unfold generateJSX. apply String.eqb_neq in N. now rewrite N.
Qed.

(** X4. [generateComponents] throws exactly when the framework is not
    react and there is a target, and then it throws the reference error of
    [generateJSX]; otherwise it returns one artifact for each target, the
    empty array when there is none. *)
Theorem generateComponents_fails_iff
        (figmaData : FigmaApiResponse.t) (options : Options.t)
        (customCode : CustomCodeInputs.t) (clock : Clock) :
  match generateComponents figmaData options customCode clock with
  | inl e =>
      e = ReferenceError "jsx is not defined" /\
      Options.framework options <> "react" /\ targets figmaData <> []
  | inr (generated, _) =>
      List.length generated = List.length (targets figmaData) /\
      (Options.framework options = "react" \/ targets figmaData = [])
  end.
Proof.
  destruct (String.eqb_spec (Options.framework options) "react") as [R|N].
  - destruct (generateComponents_react figmaData options customCode clock R)
      as [generated [c' [E F]]].
    rewrite E. split; [exact (Forall2_length F) | now left].
  - rewrite generateComponents_targets.
    destruct (targets figmaData) as [|t ts].
    + cbn. split; [reflexivity | now right].
    + cbn [forEach]. unfold bind at 1, pushGenerated at 1. unfold bind at 1.
      rewrite generateSingleComponent_run, (generateJSX_not_react _ _ _ _ N).
      split; [reflexivity|]. split; [exact N | discriminate].
Qed.

Lemma Forall2_generated_maps options customCode generated ts :
  Forall2 (generatedFrom options customCode) generated ts ->
  map GeneratedComponent.id generated =
  map (fun t : FigmaNode * string => Node.id (fst t)) ts /\
  map GeneratedComponent.name generated =
  map (fun t : FigmaNode * string => sanitizeComponentName (snd t)) ts /\
  Forall (fun g =>
            Sanitized (GeneratedComponent.name g) /\
            ComponentMetadata.figmaNodeId (GeneratedComponent.metadata g) =
            GeneratedComponent.id g /\
            (GeneratedComponent.typescript g <> None <->
             Options.typescript options = true)) generated.
Proof.
  induction 1 as [|g t gs ts' G _ [I [N A]]].
  - split; [reflexivity|]. split; [reflexivity|constructor].
  - destruct (generatedFrom_artifact _ _ _ _ G) as [jsx [t0 [t1 [_ ->]]]].
    cbn [map]. rewrite I, N.
    split; [reflexivity|]. split; [reflexivity|].
    constructor; [|exact A]. cbn. split; [apply sanitize_Sanitized|].
    split; [reflexivity|].
    destruct (Options.typescript options); split; intros; congruence.
Qed.

(** X5. With the react framework the artifacts come in the order of the
    targets; each carries the id of its node, also as [figmaNodeId], and the
    sanitized name, which is not empty, holds letters and digits only and
    starts with a capital; [typescript] is present exactly when the option
    is set. *)
Theorem generateComponents_react_artifacts
        (figmaData : FigmaApiResponse.t) (options : Options.t)
        (customCode : CustomCodeInputs.t) (clock : Clock) :
  Options.framework options = "react" ->
  exists generated clock',
    generateComponents figmaData options customCode clock
    = inr (generated, clock') /\
    map GeneratedComponent.id generated =
    map (fun t : FigmaNode * string => Node.id (fst t)) (targets figmaData) /\
    map GeneratedComponent.name generated =
    map (fun t : FigmaNode * string => sanitizeComponentName (snd t))
      (targets figmaData) /\
    Forall (fun g =>
              Sanitized (GeneratedComponent.name g) /\
              ComponentMetadata.figmaNodeId (GeneratedComponent.metadata g) =
              GeneratedComponent.id g /\
              (GeneratedComponent.typescript g <> None <->
               Options.typescript options = true)) generated.
Proof.
  intros R.
  destruct (generateComponents_react figmaData options customCode clock R)
    as [generated [c' [E F]]].
  exists generated, c'. split; [exact E|].
  exact (Forall2_generated_maps _ _ _ _ F).
Qed.

Lemma generateComponents_react_artifacts_witness :
  Options.framework (Sample.react "tailwind") = "react" /\
  exists generated clock',
    generateComponents Sample.file (Sample.react "tailwind")
      CustomCodeInputs.empty Sample.clock = inr (generated, clock') /\
    map GeneratedComponent.id generated = ["0:1"] /\
    map GeneratedComponent.name generated = ["Page"].
Proof.
  split; [reflexivity|].
  destruct (generateComponents_react_artifacts Sample.file
              (Sample.react "tailwind") CustomCodeInputs.empty Sample.clock
              eq_refl) as [generated [clock' [E [I [N _]]]]].
  exists generated, clock'. split; [exact E|]. split; [exact I | exact N].
Defined.

(** X6. When no declared component resolves, with the react framework,
    the artifacts are those of the frames that have a child, in pre-order:
    a frame nested in another frame gets an artifact of its own. *)
Theorem generateComponents_fallback
        (figmaData : FigmaApiResponse.t) (options : Options.t)
        (customCode : CustomCodeInputs.t) (clock : Clock) :
  Options.framework options = "react" ->
  resolved figmaData = [] ->
  exists generated clock',
    generateComponents figmaData options customCode clock
    = inr (generated, clock') /\
    map GeneratedComponent.id generated =
    map (fun frame : FigmaNode => Node.id frame)
      (filter isMainFrame (preorder (FigmaApiResponse.document figmaData))).
Proof.
  intros R E.
  destruct (generateComponents_react figmaData options customCode clock R)
    as [generated [c' [Run F]]].
  exists generated, c'. split; [exact Run|].
  rewrite (proj1 (Forall2_generated_maps _ _ _ _ F)).
  unfold targets. rewrite E. unfold findMainFrames.
  rewrite traverse_preorder, map_map. reflexivity.
Qed.

Lemma generateComponents_fallback_witness :
  Options.framework (Sample.react "tailwind") = "react" /\
  resolved (FigmaApiResponse.mk Sample.page None) = [] /\
  exists generated clock',
    generateComponents (FigmaApiResponse.mk Sample.page None)
      (Sample.react "tailwind") CustomCodeInputs.empty Sample.clock
    = inr (generated, clock') /\
    map GeneratedComponent.id generated = ["0:1"].
Proof.
  split; [reflexivity|]. split; [reflexivity|].
  exact (generateComponents_fallback (FigmaApiResponse.mk Sample.page None)
           (Sample.react "tailwind") CustomCodeInputs.empty Sample.clock
           eq_refl eq_refl).
Defined.

Lemma forEach_times options customCode :
  Options.framework options = "react" ->
  forall ts acc c,
  exists news c',
    forEach (pushGenerated options customCode) ts acc c
    = inr (push acc news, c') /\
    map generationTimeOf news =
    map (fun k => (c (2 * k + 1)%nat - c (2 * k)%nat)%Z)
      (seq 0 (List.length ts)) /\
    forall n, c' n = c (2 * List.length ts + n)%nat.
Proof.
  intros R ts. induction ts as [|t r IH]; intros acc c.
  - exists [], c. split; [|split; [reflexivity|reflexivity]].
    cbn [forEach]. unfold ret, push. now rewrite app_nil_r.
  - destruct (generateSingleComponent_react options customCode (fst t) (snd t)
                c R) as [jsx Run].
    set (g := artifact options customCode (fst t) (snd t) jsx
                (c 0%nat) (c 1%nat)) in Run.
    destruct (IH (push acc [g]) (fun n => c (S (S n))))
      as [news [c' [E [T C]]]].
    exists (g :: news), c'. split; [|split].
    + cbn [forEach]. unfold bind at 1. unfold pushGenerated at 1.
      unfold bind at 1. rewrite Run. unfold ret at 1.
      rewrite E. unfold push. now rewrite <- app_assoc.
    + cbn [map List.length seq]. f_equal.
      rewrite T, <- seq_shift, map_map. apply map_ext. intros k.
      f_equal; f_equal; lia.
    + intros n. rewrite C. f_equal. cbn [List.length]. lia.
Qed.

(** X7. With the react framework the clock is read twice for each artifact:
    the generation time of the artifact of rank [k] is the difference of the
    readings of rank [2k+1] and [2k], the clock is left after two readings
    per target, and no generation time is negative when the clock does not
    go back. *)
Theorem generationTime_readings
        (figmaData : FigmaApiResponse.t) (options : Options.t)
        (customCode : CustomCodeInputs.t) (clock : Clock) :
  Options.framework options = "react" ->
  exists generated clock',
    generateComponents figmaData options customCode clock
    = inr (generated, clock') /\
    map generationTimeOf generated =
    map (fun k => (clock (2 * k + 1)%nat - clock (2 * k)%nat)%Z)
      (seq 0 (List.length (targets figmaData))) /\
    (forall n,
        clock' n = clock (2 * List.length (targets figmaData) + n)%nat) /\
    ((forall i j, (i <= j)%nat -> (clock i <= clock j)%Z) ->
     Forall (fun g => (0 <= generationTimeOf g)%Z) generated).
Proof.
  intros R. rewrite generateComponents_targets.
  destruct (forEach_times options customCode R (targets figmaData) [] clock)
    as [news [c' [E [T C]]]].
  exists news, c'. split; [exact E|]. split; [exact T|]. split; [exact C|].
  intros Mono. apply Forall_forall. intros g I.
  apply (in_map generationTimeOf) in I. rewrite T in I.
  apply in_map_iff in I. destruct I as [k [<- _]].
  specialize (Mono (2 * k)%nat (2 * k + 1)%nat). lia.
Qed.

Lemma generationTime_readings_witness :
  Options.framework (Sample.react "tailwind") = "react" /\
  exists generated clock',
    generateComponents Sample.file (Sample.react "tailwind")
      CustomCodeInputs.empty Sample.clock = inr (generated, clock') /\
    map generationTimeOf generated = [1%Z].
Proof.
  split; [reflexivity|].
  destruct (generationTime_readings Sample.file (Sample.react "tailwind")
              CustomCodeInputs.empty Sample.clock eq_refl)
    as [generated [clock' [E [T _]]]].
  exists generated, clock'. split; [exact E | exact T].
Defined.

(** ** The accessibility report and the metadata *)

(** X8. Whatever the contrast estimate, the score of
    [analyzeAccessibility] lies between 75 and 100, the report is never
    Non-compliant, it is of level A exactly for a text node with an image
    fill and a contrast below 4.5, and it holds at most two issues. *)
Theorem analyzeAccessibilityWith_never_non_compliant
        (contrast : FigmaNode -> Num.number) (node : FigmaNode) :
  let report := analyzeAccessibilityWith contrast node in
  (75 <= AccessibilityReport.score report <= 100)%Z /\
  AccessibilityReport.wcagCompliance report <> Wcag.NonCompliant /\
  (AccessibilityReport.wcagCompliance report = Wcag.A <->
   isImage node = true /\ Node.type node = TEXT /\
   Num.ltb (contrast node) (45 # 10) = true) /\
  (List.length (AccessibilityReport.issues report) <= 2)%nat.
Proof.
  unfold analyzeAccessibilityWith.
  destruct (isImage node), (Node.type node) eqn:T,
    (Num.ltb (contrast node) (45 # 10)), (isInteractiveElement node);
    cbn; repeat split; try lia; try discriminate; try reflexivity;
    try (intros [? [? ?]]; discriminate); try (intros; discriminate).
Qed.


(** X9. With the constant contrast estimate the class has, the contrast
    check of [analyzeAccessibility] never fires: the score is 85 with the
    single alt-text error for a node with an image fill and 100 without
    issue otherwise, the three suggestions are those of an interactive
    element, and the level is AA in every case. *)
Theorem analyzeAccessibility_image_only (node : FigmaNode) :
  analyzeAccessibility node =
  AccessibilityReport.mk
    (if isImage node then 85 else 100)
    (if isImage node then [altTextIssue node] else [])
    (if isInteractiveElement node
     then ["Ensure keyboard navigation support";
           "Add ARIA labels for screen readers";
           "Use proper focus states"]
     else [])
    Wcag.AA.
Proof.
  unfold analyzeAccessibility, analyzeAccessibilityWith, altTextIssue.
  destruct (isImage node), (isTEXT (Node.type node)),
    (isInteractiveElement node); reflexivity.
Qed.

(** X10. The legacy [analyzeAccessibility] always reports level AA; its
    score is 80 for a rectangle with an image fill and 100 for every other
    node. *)
Theorem legacy_analyzeAccessibility_scores (node : FigmaNode) :
  let report := Legacy.analyzeAccessibility node in
  AccessibilityReport.wcagCompliance report = Wcag.AA /\
  (AccessibilityReport.score report = 80%Z \/
   AccessibilityReport.score report = 100%Z) /\
  (AccessibilityReport.score report = 80%Z <->
   Node.type node = RECTANGLE /\ isImage node = true).
Proof.
  unfold Legacy.analyzeAccessibility, isImage.
  destruct (Node.type node) eqn:T, (someImageFill node) as [[|]|];
    cbn; repeat split; auto; try discriminate;
    try (intros [? ?]; discriminate); try (intros; discriminate).
Qed.

Lemma complexity_cases (node : FigmaNode) :
  (calculateComplexity node = Complexity.simple ->
   (childCount node <= 3)%nat) /\
  (childCount node = 0%nat ->
   calculateComplexity node = Complexity.simple) /\
  ((8 < childCount node)%nat ->
   calculateComplexity node = Complexity.complex).
Proof.
  unfold calculateComplexity, childCount.
  destruct (Node.children node) as [cs|];
    destruct (Node.effects node) as [es|];
    destruct (Node.fills node) as [fs|]; cbn zeta;
    repeat match goal with
           | |- context [(?a <? ?b)%nat] => destruct (Nat.ltb_spec a b)
           | |- context [(?a <=? ?b)%Z] => destruct (Z.leb_spec a b)
           end; repeat split; intros; try discriminate; try reflexivity; try lia.
Qed.

(** X11. [calculateComplexity] answers simple only for a node with at most
    three children, simple for every node without children, whatever its
    effects and fills, and complex for every node with more than eight
    children. *)
Theorem calculateComplexity_children (node : FigmaNode) :
  (calculateComplexity node = Complexity.simple ->
   (childCount node <= 3)%nat) /\
  (childCount node = 0%nat ->
   calculateComplexity node = Complexity.simple) /\
  ((8 < childCount node)%nat ->
   calculateComplexity node = Complexity.complex).
Proof. apply complexity_cases. Qed.

Lemma estimateAccuracy_range (node : FigmaNode) :
  (80 <= estimateAccuracy node <= 100)%Z.
Proof.
  unfold estimateAccuracy.
  pose proof (complexity_cases node) as [S _]. unfold childCount in S.
  destruct (calculateComplexity node) eqn:C;
    destruct (Node.children node) as [cs|];
    destruct (detectComponentType node);
    repeat match goal with
           | |- context [(?a <? ?b)%nat] => destruct (Nat.ltb_spec a b)
           end; try lia; specialize (S eq_refl); lia.
Qed.

(** X12. [estimateAccuracy] stays between 80 and 100: the lower clamp of
    70 is never reached; a node with more than five children gets at most
    85, and a node without children at least 95. *)
Theorem estimateAccuracy_bounds (node : FigmaNode) :
  (80 <= estimateAccuracy node <= 100)%Z /\
  ((5 < childCount node)%nat -> (estimateAccuracy node <= 85)%Z) /\
  (childCount node = 0%nat -> (95 <= estimateAccuracy node)%Z).
Proof.
  split; [apply estimateAccuracy_range|].
  pose proof (complexity_cases node) as [S [Z0 _]].
  unfold estimateAccuracy, childCount in *.
  destruct (calculateComplexity node) eqn:C;
    destruct (Node.children node) as [cs|];
    destruct (detectComponentType node);
    repeat match goal with
           | |- context [(?a <? ?b)%nat] => destruct (Nat.ltb_spec a b)
           end; cbn [List.length] in *;
    split; intros Hyp; try lia;
    try (specialize (S eq_refl); lia);
    try (specialize (Z0 Hyp); discriminate).
Qed.



(** X14. The dependency list of [extractDependencies] has no duplicate,
    starts with react and next, and holds @types/react, next/image and
    styled-components exactly under the typescript option, for a node with
    an image fill, and under the styled-components styling. *)
Theorem extractDependencies_distinct (options : Options.t) (node : FigmaNode) :
  let deps := extractDependencies options node in
  NoDup deps /\
  (exists rest, deps = "react" :: "next" :: rest) /\
  (In "@types/react" deps <-> Options.typescript options = true) /\
  (In "next/image" deps <-> isImage node = true) /\
  (In "styled-components" deps <->
   Options.styling options = "styled-components").
Proof.
  unfold extractDependencies, push.
  destruct (Options.typescript options), (isImage node),
    (String.eqb_spec (Options.styling options) "styled-components") as [E|E];
    cbn; (split; [repeat constructor; cbn; intuition discriminate|]);
    (split; [eexists; reflexivity|]);
    repeat split; intros; auto; try discriminate;
    try (intuition discriminate); try (exfalso; intuition congruence).
Qed.

(** ** Styles and class names *)

(** X15. The keys of [extractAllStyles] are distinct and come in the order
    width, height, display, flexDirection, gap, backgroundColor,
    borderRadius, some of them left out: no other property is extracted. *)
Theorem extractAllStyles_keys (node : FigmaNode) :
  subsequence (map fst (extractAllStyles node)) styleKeys = true /\
  NoDup (map fst (extractAllStyles node)).
Proof.
  unfold extractAllStyles, push, whenNum.
  destruct (Node.absoluteBoundingBox node), (truthyStr (Node.layoutMode node)),
    (Node.itemSpacing node) as [s|], (Node.backgroundColor node),
    (Node.cornerRadius node) as [r|];
    try destruct (Num.truthy s); try destruct (Num.truthy r);
    cbn; (split; [reflexivity|]); repeat constructor; cbn; intuition discriminate.
Qed.

(** X16. A padding that is not zero gives its class in the tailwind
    dialect and no entry in [extractAllStyles]: the three CSS dialects drop
    the padding of a node; the item spacing is dropped as well when the node
    has no layout mode. *)
Theorem padding_only_in_tailwind (node : FigmaNode) (attr : SizeAttr)
        (px : Num.number) :
  attr <> ItemSpacing -> attr <> CornerRadius ->
  getAttr attr node = Some px -> Num.truthy px = true ->
  In (classPrefix attr ++ pxToTailwindSpacing px) (tailwindClassList node) /\
  hasStyleFor attr (extractAllStyles node) = false /\
  (truthyStr (Node.layoutMode node) = false ->
   hasStyleFor ItemSpacing (extractAllStyles node) = false).
Proof.
  intros NI NC G T. split; [|split].
  - unfold tailwindClassList.
    destruct attr; try contradiction; cbn [getAttr classPrefix] in *;
      rewrite G; cbn [whenNum]; rewrite T; find_class.
  - clear G. unfold extractAllStyles, push, whenNum.
    destruct (Node.absoluteBoundingBox node),
      (truthyStr (Node.layoutMode node)),
      (Node.itemSpacing node) as [s|], (Node.backgroundColor node),
      (Node.cornerRadius node) as [r|];
      try destruct (Num.truthy s); try destruct (Num.truthy r);
      destruct attr; try contradiction; reflexivity.
  - unfold extractAllStyles, push, whenNum. intros ->.
    destruct (Node.absoluteBoundingBox node),
      (Node.itemSpacing node) as [s|], (Node.backgroundColor node),
      (Node.cornerRadius node) as [r|];
      try destruct (Num.truthy s); try destruct (Num.truthy r); reflexivity.
Qed.

Lemma padding_only_in_tailwind_witness :
  In "pl-2" (tailwindClassList (setAttr PaddingLeft (Some (8 # 1)) Sample.label))
  /\ hasStyleFor PaddingLeft
       (extractAllStyles (setAttr PaddingLeft (Some (8 # 1)) Sample.label))
     = false.
Proof.
  destruct (padding_only_in_tailwind
              (setAttr PaddingLeft (Some (8 # 1)) Sample.label)
              PaddingLeft (8 # 1)
              ltac:(discriminate) ltac:(discriminate) eq_refl eq_refl)
    as [I [S _]].
  split; [exact I | exact S].
Defined.

Lemma lower_not_upper c :
  JS.isLower c || JS.isDigit c = true -> JS.isUpper c = false.
Proof. destruct c as [[] [] [] [] [] [] [] []]; vm_compute; congruence. Qed.

Lemma toLowerChar_not_upper c : JS.isUpper (JS.toLowerChar c) = false.
Proof. destruct c as [[] [] [] [] [] [] [] []]; vm_compute; congruence. Qed.

Lemma toLowerChar_fixed c : JS.isUpper c = false -> JS.toLowerChar c = c.
Proof. unfold JS.toLowerChar. now intros ->. Qed.

Lemma hyphenate_two (c u : ascii) (r : string) :
  hyphenate (String c (String u r)) =
  if (JS.isLower c || JS.isDigit c) && JS.isUpper u
  then String c ("-" ++ String u (hyphenate r))
  else if JS.isUpper c then "-" ++ String c (hyphenate (String u r))
  else String c (hyphenate (String u r)).
Proof. reflexivity. Qed.

Lemma hyphenate_each_two (s : string) :
  hyphenate s = hyphenEach s /\
  forall c, hyphenate (String c s) = hyphenEach (String c s).
Proof.
  induction s as [|u r [IH1 IH2]].
  - split; [reflexivity|]. intros c. cbn. destruct (JS.isUpper c); reflexivity.
  - split; [apply IH2|]. intros c.
    rewrite hyphenate_two.
    destruct ((JS.isLower c || JS.isDigit c) && JS.isUpper u) eqn:E.
    + apply andb_true_iff in E. destruct E as [L U].
      cbn [hyphenEach]. rewrite (lower_not_upper c L), U, IH1. reflexivity.
    + rewrite IH2. reflexivity.
Qed.

Lemma hyphenEach_fixed s : allChars notUpper s = true -> hyphenEach s = s.
Proof.
  induction s as [|c r IH]; [reflexivity|]. cbn. unfold notUpper at 1.
  intros H. apply andb_true_iff in H. destruct H as [U R].
  apply negb_true_iff in U. now rewrite U, IH.
Qed.

Lemma toLowerCase_notUpper s : allChars notUpper (JS.toLowerCase s) = true.
Proof.
  induction s as [|c r IH]; [reflexivity|]. cbn. unfold notUpper at 1.
  now rewrite toLowerChar_not_upper, IH.
Qed.

Lemma toLowerCase_fixed s : allChars notUpper s = true -> JS.toLowerCase s = s.
Proof.
  induction s as [|c r IH]; [reflexivity|]. cbn. unfold notUpper at 1.
  intros H. apply andb_true_iff in H. destruct H as [U R].
  apply negb_true_iff in U. unfold JS.toLowerCase in *.
  now rewrite (toLowerChar_fixed c U), IH.
Qed.

(** X17. The three replacements of [camelToKebab] amount to one pass: a
    hyphen before every capital letter, whatever comes before it, then lower
    case; a leading capital and a run of capitals get hyphens too. *)
Theorem camelToKebab_every_capital (str : string) :
  camelToKebab str = JS.toLowerCase (hyphenEach str).
Proof. unfold camelToKebab. now rewrite (proj1 (hyphenate_each_two str)). Qed.

(** X18. The result of [camelToKebab] holds no capital letter, and
    [camelToKebab] leaves it unchanged. *)
Theorem camelToKebab_idempotent (str : string) :
  allChars notUpper (camelToKebab str) = true /\
  camelToKebab (camelToKebab str) = camelToKebab str.
Proof.
  assert (N : allChars notUpper (camelToKebab str) = true)
    by apply toLowerCase_notUpper.
  split; [exact N|].
  unfold camelToKebab at 1.
  rewrite (proj1 (hyphenate_each_two _)), (hyphenEach_fixed _ N).
  now apply toLowerCase_fixed.
Qed.

Lemma replaceAll_keeps (p : ascii -> bool) (s : string) :
  allChars p (JS.replaceAll (fun c => negb (p c)) "" s) = true.
Proof.
  induction s as [|c r IH]; [reflexivity|]. cbn.
  destruct (p c) eqn:E; cbn; [now rewrite E|exact IH].
Qed.

(** X19. Outside the tailwind dialect the class name of a node holds
    lower-case letters, digits and hyphens only, whatever the name of the
    node is. *)
Theorem generateClassName_characters (options : Options.t) (node : FigmaNode) :
  Options.styling options <> "tailwind" ->
  allChars classChar (generateClassName options node) = true.
Proof.
  intros T. unfold generateClassName, isTailwind.
  apply String.eqb_neq in T. rewrite T.
  apply (replaceAll_keeps classChar).
Qed.

Lemma generateClassName_characters_witness :
  Options.styling (Sample.react "plain-css") <> "tailwind" /\
  allChars classChar
    (generateClassName (Sample.react "plain-css") Sample.page) = true.
Proof.
  split; [discriminate|].
  apply generateClassName_characters. discriminate.
Defined.

Lemma alnum_lower_not_brace c :
  JS.isAlnum c = true -> notBrace (JS.toLowerChar c) = true.
Proof. destruct c as [[] [] [] [] [] [] [] []]; vm_compute; congruence. Qed.

Lemma AllAlnum_lower_no_brace s :
  AllAlnum s -> allChars notBrace (JS.toLowerCase s) = true.
Proof.
  induction 1 as [|c r Hc _ IH]; [reflexivity|].
  cbn. now rewrite (alnum_lower_not_brace c Hc), IH.
Qed.

Lemma untilBrace_skip (pre rest : string) :
  allChars notBrace pre = true ->
  untilBrace (pre ++ rest) =
  match untilBrace rest with
  | Some (n, r) => Some ((String.length pre + n)%nat, r)
  | None => None
  end.
Proof.
  induction pre as [|c p IH]; intros H.
  - cbn. destruct (untilBrace rest) as [[n r]|]; reflexivity.
  - cbn in H. apply andb_true_iff in H. destruct H as [C P].
    unfold notBrace in C. apply negb_true_iff in C.
    cbn [append untilBrace String.length]. rewrite C, (IH P).
    destruct (untilBrace rest) as [[n r]|]; reflexivity.
Qed.

Lemma dropFinalBrace_app (s : string) : dropFinalBrace (s ++ "}") = s.
Proof.
  induction s as [|c r IH]; [reflexivity|].
  cbn [append dropFinalBrace].
  destruct r as [|c' r']; [reflexivity|].
  cbn [append] in *. now rewrite IH.
Qed.

Lemma append_assoc (a b c : string) : (a ++ b) ++ c = a ++ (b ++ c).
Proof. induction a as [|x a IH]; cbn; [reflexivity|now rewrite IH]. Qed.

(** X20. For a component name of letters and digits, the two replacements
    of [generateStyledComponents] remove exactly the selector line and the
    closing brace of the rule block of [convertToCSSRules]: the template
    holds the declarations alone. *)
Theorem styled_components_body (styles : list (string * string))
        (componentName : string) :
  AllAlnum componentName ->
  generateStyledComponents (convertToCSSRules styles componentName)
    componentName =
  "import styled from 'styled-components'" ++ nl ++ nl ++
  "export const Styled" ++ componentName ++ " = styled.div`" ++ nl ++
  (nl ++ ruleLines styles ++ nl) ++ nl ++ "`".
Proof.
  intros A. unfold generateStyledComponents, convertToCSSRules.
  fold (ruleLines styles).
  assert (E : dropFinalBrace
                (dropRuleHead
                   ("." ++ JS.toLowerCase componentName ++ " {" ++ nl ++
                    ruleLines styles ++ nl ++ "}")) =
              nl ++ ruleLines styles ++ nl).
  { cbn [append dropRuleHead]. change (Ascii.eqb "." ".") with true. cbv iota.
    rewrite (untilBrace_skip _ _ (AllAlnum_lower_no_brace _ A)).
    cbn [untilBrace]. change (Ascii.eqb " " "{") with false.
    change (Ascii.eqb "{" "{") with true. cbv iota.
    rewrite Nat.add_1_r.
    rewrite <- !append_assoc. rewrite dropFinalBrace_app.
    now rewrite !append_assoc. }
  now rewrite E.
Qed.

Lemma styled_components_body_witness :
  AllAlnum "Page" /\
  generateStyledComponents (convertToCSSRules [("display", "flex")] "Page")
    "Page" =
  "import styled from 'styled-components'" ++ nl ++ nl ++
  "export const StyledPage = styled.div`" ++ nl ++
  (nl ++ "  display: flex;" ++ nl) ++ nl ++ "`".
Proof.
  assert (A : AllAlnum "Page") by (repeat constructor).
  split; [exact A|].
  exact (styled_components_body [("display", "flex")] "Page" A).
Defined.

Lemma append_empty_r (s : string) : s ++ "" = s.
Proof. induction s as [|c r IH]; cbn; [reflexivity|now rewrite IH]. Qed.

(** X21. In every dialect the custom CSS and the advanced CSS are appended
    to the generated style sheet, each under its comment line and in that
    order; they change nothing of what comes before. *)
Theorem generateCSS_custom_appended (options : Options.t)
        (customCode : CustomCodeInputs.t) (node : FigmaNode) (name : string) :
  generateCSS options customCode node name =
  generateCSS options CustomCodeInputs.empty node name ++
  customCSSSection customCode.
Proof.
  unfold generateCSS, customCSSSection. cbn [CustomCodeInputs.css
    CustomCodeInputs.cssAdvanced CustomCodeInputs.empty JS.truthy].
  now rewrite !append_empty_r.
Qed.



(** ** Numbers *)

(** X23. [pxToTailwindSpacing] answers the step 0 for every value below
    two pixels, the negative values included. *)
Theorem pxToTailwindSpacing_below_two (px : Num.number) :
  (px < 2 # 1)%Q -> pxToTailwindSpacing px = "0".
Proof.
  intros H. unfold pxToTailwindSpacing.
  destruct (Z.leb_spec (Num.round (px / (4 # 1))%Q) 0) as [L|G]; [reflexivity|].
  exfalso. assert (G' : (1 <= Num.round (px / (4 # 1))%Q)%Z) by lia.
  apply round_ge in G'. change (inject_Z (4 * 1 - 2)) with (2 # 1)%Q in G'.
  lra.
Qed.

Lemma pxToTailwindSpacing_below_two_witness :
  (1 # 1 < 2 # 1)%Q /\ pxToTailwindSpacing (1 # 1) = "0".
Proof.
  assert (H : (1 # 1 < 2 # 1)%Q) by reflexivity.
  split; [exact H | exact (pxToTailwindSpacing_below_two (1 # 1) H)].
Defined.



(** ** Elements and props *)

(** X25. The image tag, the four image attributes and the [src] prop
    follow the image fill: [getNextJSTag] answers Image exactly for a
    rectangle with an image fill, while the attributes and the prop are
    emitted for every node with an image fill, whatever its tag. *)
Theorem media_attributes_follow_fill (node : FigmaNode) :
  (getNextJSTag node = "Image" <->
   Node.type node = RECTANGLE /\ isImage node = true) /\
  generateNextJSAttributes node =
  (if isImage node
   then " src={src} alt={alt} width={width} height={height}" else "") /\
  (In "src" (map PropSpec.name (extractProps node)) <-> isImage node = true).
Proof.
  split; [|split].
  - unfold getNextJSTag.
    destruct (Node.type node); try destruct (isHeading node);
      try destruct (isImage node); split; try discriminate;
      try (intros [? ?]; discriminate); auto.
  - unfold generateNextJSAttributes. destruct (isImage node); reflexivity.
  - unfold extractProps, push.
    destruct (isTEXT (Node.type node) && truthyStr (Node.characters node)),
      (isImage node); cbn; split; intros; auto; try discriminate;
      intuition discriminate.
Qed.

(** X26. The props of [extractProps] have distinct names and end with the
    optional [className]; the props interface generated from them is never
    empty. *)
Theorem extractProps_names (node : FigmaNode) (componentName : string) :
  NoDup (map PropSpec.name (extractProps node)) /\
  (exists init,
      extractProps node =
      (init ++ [PropSpec.mk "className" "string" true])%list) /\
  generatePropsInterface (extractProps node) componentName <> "".
Proof.
  split; [|split].
  - unfold extractProps, push.
    destruct (isTEXT (Node.type node) && truthyStr (Node.characters node)),
      (isImage node); cbn;
      repeat (apply NoDup_cons; [cbn; intuition discriminate|]);
      apply NoDup_nil.
  - unfold extractProps, push. eexists. reflexivity.
  - unfold generatePropsInterface, extractProps, push.
    destruct (isTEXT (Node.type node) && truthyStr (Node.characters node)),
      (isImage node); cbn; discriminate.
Qed.

(** ** The document summary of [FigmaInfoDisplay] *)

Lemma traverse_run (node : FigmaNode) :
  forall depth acc,
    FigmaInfoDisplay.traverse node depth acc =
    FigmaInfoDisplay.mk
      (FigmaInfoDisplay.allNodes acc ++ preorderDepth depth node)
      (fold_left FigmaInfoDisplay.increment
         (map (fun n : FigmaNode => Node.type n) (preorder node))
         (FigmaInfoDisplay.nodeCounts acc)).
Proof.
  induction node as [o|o cs IH] using Node_tree_ind; intros depth acc.
  - reflexivity.
  - cbn [FigmaInfoDisplay.traverse preorder preorderDepth map fold_left].
    set (acc1 := FigmaInfoDisplay.mk _ _).
    assert (E : forall a,
               fold_left
                 (fun a child => FigmaInfoDisplay.traverse child (S depth) a)
                 cs a =
               FigmaInfoDisplay.mk
                 (FigmaInfoDisplay.allNodes a ++
                  flat_map (preorderDepth (S depth)) cs)
                 (fold_left FigmaInfoDisplay.increment
                    (map (fun n : FigmaNode => Node.type n)
                       (flat_map preorder cs))
                    (FigmaInfoDisplay.nodeCounts a))).
    { induction IH as [|c r Hc _ IHr]; intros a.
      - cbn. rewrite app_nil_r. now destruct a.
      - cbn [fold_left flat_map]. rewrite Hc, IHr.
        cbn [FigmaInfoDisplay.allNodes FigmaInfoDisplay.nodeCounts].
        now rewrite <- app_assoc, map_app, fold_left_app. }
    rewrite E. subst acc1.
    cbn [FigmaInfoDisplay.allNodes FigmaInfoDisplay.nodeCounts]. unfold push.
    now rewrite <- app_assoc.
Qed.

Lemma preorderDepth_nodes depth node :
  map fst (preorderDepth depth node) = preorder node.
Proof.
  revert depth. induction node as [o|o cs IH] using Node_tree_ind; intros depth.
  - reflexivity.
  - cbn [preorderDepth preorder map fst]. f_equal.
    induction IH as [|c r Hc _ IHr]; [reflexivity|].
    cbn [flat_map]. now rewrite map_app, Hc, IHr.
Qed.

Lemma NodeType_beq_eq a b : NodeType_beq a b = true <-> a = b.
Proof.
  split; [apply internal_NodeType_dec_bl | apply internal_NodeType_dec_lb].
Qed.

Lemma NodeType_beq_refl t : NodeType_beq t t = true.
Proof. now apply NodeType_beq_eq. Qed.

Lemma increment_spec counts type :
  (forall t, FigmaInfoDisplay.countOf t (FigmaInfoDisplay.increment counts type)
             = (FigmaInfoDisplay.countOf t counts +
                if NodeType_beq type t then 1 else 0)%nat) /\
  FigmaInfoDisplay.total (FigmaInfoDisplay.increment counts type) =
  S (FigmaInfoDisplay.total counts) /\
  (forall k, In k (map fst (FigmaInfoDisplay.increment counts type)) <->
             k = type \/ In k (map fst counts)) /\
  (NoDup (map fst counts) ->
   NoDup (map fst (FigmaInfoDisplay.increment counts type))).
Proof.
  induction counts as [|[key count] rest [IHc [IHt [IHk IHn]]]].
  - split; [|split; [|split]].
    + intros t. unfold FigmaInfoDisplay.countOf. cbn.
      destruct (NodeType_beq type t); reflexivity.
    + reflexivity.
    + cbn. intuition.
    + intros _. repeat constructor. intros [].
  - cbn [FigmaInfoDisplay.increment]. destruct (NodeType_beq key type) eqn:E.
    + apply NodeType_beq_eq in E. subst key.
      assert (C : ((if (count =? 0)%nat then 0 else count) + 1 = S count)%nat).
      { destruct (Nat.eqb_spec count 0); lia. }
      rewrite C. split; [|split; [|split]].
      * intros t. unfold FigmaInfoDisplay.countOf. cbn.
        destruct (NodeType_beq type t); lia.
      * unfold FigmaInfoDisplay.total. cbn. lia.
      * cbn. intuition.
      * cbn. auto.
    + split; [|split; [|split]].
      * intros t. specialize (IHc t). unfold FigmaInfoDisplay.countOf in *. cbn.
        destruct (NodeType_beq key t) eqn:K; [|exact IHc].
        apply NodeType_beq_eq in K. subst t.
        destruct (NodeType_beq type key) eqn:K'; [|lia].
        apply NodeType_beq_eq in K'. subst type.
        rewrite NodeType_beq_refl in E. discriminate.
      * unfold FigmaInfoDisplay.total in *. cbn in *. lia.
      * intros k. cbn. rewrite IHk. intuition.
      * cbn. intros N. inversion N as [|? ? Hn Hr]; subst.
        constructor; [|now apply IHn].
        rewrite IHk. intros [->|I]; [|contradiction].
        rewrite NodeType_beq_refl in E. discriminate.
Qed.

Lemma fold_increment types :
  forall counts,
    (forall t,
        FigmaInfoDisplay.countOf t
          (fold_left FigmaInfoDisplay.increment types counts) =
        (FigmaInfoDisplay.countOf t counts +
         count_occ NodeType_eq_dec types t)%nat) /\
    FigmaInfoDisplay.total (fold_left FigmaInfoDisplay.increment types counts)
    = (FigmaInfoDisplay.total counts + List.length types)%nat /\
    (NoDup (map fst counts) ->
     NoDup (map fst (fold_left FigmaInfoDisplay.increment types counts))).
Proof.
  induction types as [|ty r IH]; intros counts.
  - cbn. split; [|split]; auto.
  - cbn [fold_left].
    destruct (IH (FigmaInfoDisplay.increment counts ty)) as [Hc [Ht Hn]].
    destruct (increment_spec counts ty) as [Sc [St [_ Sn]]].
    split; [|split].
    + intros t. rewrite Hc, Sc. cbn [count_occ].
      destruct (NodeType_eq_dec ty t) as [->|N].
      * rewrite NodeType_beq_refl. lia.
      * destruct (NodeType_beq ty t) eqn:B; [|lia].
        apply NodeType_beq_eq in B. contradiction.
    + rewrite Ht, St. cbn [List.length]. lia.
    + intros N. apply Hn, Sn, N.
Qed.

(** X27. [processFigmaDocument] lists every node of the document once, in
    pre-order, each with its depth below the document node. *)
Theorem processFigmaDocument_nodes (documentNode : FigmaNode) :
  FigmaInfoDisplay.allNodes
    (FigmaInfoDisplay.processFigmaDocument documentNode)
  = preorderDepth 0 documentNode /\
  map fst
    (FigmaInfoDisplay.allNodes
       (FigmaInfoDisplay.processFigmaDocument documentNode))
  = preorder documentNode.
Proof.
  unfold FigmaInfoDisplay.processFigmaDocument. rewrite traverse_run.
  cbn [FigmaInfoDisplay.allNodes app].
  split; [reflexivity | apply preorderDepth_nodes].
Qed.

(** X28. The count [processFigmaDocument] keeps for a node type is the
    number of nodes of that type in the document; the counts add up to the
    number of listed nodes, and no type has two entries. *)
Theorem processFigmaDocument_counts (documentNode : FigmaNode) :
  let result := FigmaInfoDisplay.processFigmaDocument documentNode in
  (forall type,
      FigmaInfoDisplay.countOf type (FigmaInfoDisplay.nodeCounts result) =
      count_occ NodeType_eq_dec
        (map (fun n : FigmaNode => Node.type n) (preorder documentNode)) type)
  /\
  FigmaInfoDisplay.total (FigmaInfoDisplay.nodeCounts result) =
  List.length (FigmaInfoDisplay.allNodes result) /\
  NoDup (map fst (FigmaInfoDisplay.nodeCounts result)).
Proof.
  unfold FigmaInfoDisplay.processFigmaDocument. rewrite traverse_run.
  cbn [FigmaInfoDisplay.allNodes FigmaInfoDisplay.nodeCounts app].
  destruct (fold_increment
              (map (fun n : FigmaNode => Node.type n) (preorder documentNode))
              [])
    as [Hc [Ht Hn]].
  split; [|split].
  - intros type. now rewrite Hc.
  - rewrite Ht. cbn. rewrite length_map.
    now rewrite <- (preorderDepth_nodes 0 documentNode), length_map.
  - apply Hn. constructor.
Qed.

(** ** The legacy dialects *)

(** X29. In the tailwind dialect the legacy [generateCSS] answers with at
    most two fixed classes: bg-gray-500 when the node has a background
    colour, whatever the colour, and rounded when its corner radius is not
    zero; size, layout and spacing leave no class. *)
Theorem legacy_generateCSS_tailwind (node : FigmaNode) :
  LegacyDialects.generateCSS node "tailwind" =
  JS.join " "
    ((match Node.backgroundColor node with
      | Some _ => ["bg-gray-500"]
      | None => []
      end) ++
     (if truthyNum (Node.cornerRadius node) then ["rounded"] else []))%list.
Proof.
  unfold LegacyDialects.generateCSS, LegacyDialects.convertToTailwind,
    Legacy.extractStyles, push, whenNum, truthyNum.
  cbn [String.eqb Ascii.eqb]. change (String.eqb "tailwind" "tailwind") with true.
  cbv iota.
  destruct (Node.absoluteBoundingBox node), (Node.backgroundColor node),
    (Node.cornerRadius node) as [r|]; try destruct (Num.truthy r); reflexivity.
Qed.

(** X30. For a corner radius from 6 up to, not including, 10 pixels the
    legacy [generateTailwindClasses] emits the class rounded- with nothing
    after the hyphen. *)
Theorem legacy_rounded_dangling (node : FigmaNode) (cornerRadius : Num.number) :
  Node.cornerRadius node = Some cornerRadius ->
  (6 # 1 <= cornerRadius)%Q -> (cornerRadius < 10 # 1)%Q ->
  In "rounded-" (LegacyDialects.tailwindClassList node).
Proof.
  intros C L U. unfold LegacyDialects.tailwindClassList. rewrite C.
  assert (P : (0 < cornerRadius)%Q) by lra.
  rewrite (whenNum_positive cornerRadius _ P).
  assert (R : Num.round (cornerRadius / (4 # 1))%Q = 2%Z).
  { assert (A : (2 <= Num.round (cornerRadius / (4 # 1))%Q)%Z).
    { apply round_ge. change (inject_Z (4 * 2 - 2)) with (6 # 1)%Q. exact L. }
    assert (B : ~ (3 <= Num.round (cornerRadius / (4 # 1))%Q)%Z).
    { rewrite round_ge. change (inject_Z (4 * 3 - 2)) with (10 # 1)%Q. lra. }
    lia. }
  rewrite R. cbn [Z.leb Z.eqb Z.compare Pos.compare Pos.compare_cont Pos.eqb].
  destruct (Node.backgroundColor node);
    [apply In_push_l|]; apply In_push_r; left; reflexivity.
Qed.

Lemma legacy_rounded_dangling_witness :
  Node.cornerRadius (setAttr CornerRadius (Some (8 # 1)) Sample.label)
  = Some (8 # 1) /\
  (6 # 1 <= 8 # 1)%Q /\ (8 # 1 < 10 # 1)%Q /\
  In "rounded-"
    (LegacyDialects.tailwindClassList
       (setAttr CornerRadius (Some (8 # 1)) Sample.label)).
Proof.
  assert (L : (6 # 1 <= 8 # 1)%Q) by (unfold Qle; cbn; lia).
  assert (U : (8 # 1 < 10 # 1)%Q) by reflexivity.
  split; [reflexivity|]. split; [exact L|]. split; [exact U|].
  exact (legacy_rounded_dangling
           (setAttr CornerRadius (Some (8 # 1)) Sample.label) (8 # 1)
           eq_refl L U).
Defined.
